(** * Class Sync: the command runner and the four command handlers

    A shallow embedding of the editor extension of this repository:

    - [src/extension.ts] (the student extension: [runCommand], [studentSetup],
      [studentResync]);
    - the combined extension (professor and student handlers: [runCommand],
      [professorSetup], [professorSync], [studentSetup], [studentResync]).

    [runCommand], [studentSetup] and [studentResync] have the same text in
    both files, comments apart, and are embedded once.  [activate] of both
    extensions, the status-bar buttons of the student extension and the
    companion batch script follow the handlers.

    The handlers are [async] functions that talk to the editor (dialogs,
    notifications, workspace state) and to the operating system (one child
    process per command).  They are embedded in a state-and-rejection monad
    [Async]: a computation takes the mutable part of the world, returns a
    settled promise (resolved with a value or rejected with an error) and the
    new world.  Everything a handler does to the outside is appended to a
    chronological [trace]; what the outside answers (the user in a dialog, a
    child process when it exits) is given by oracles of the environment that
    may depend on everything that happened before. *)

From stdpp Require Import base gmap strings list.
From Stdlib Require Import ZArith Ascii String.

Local Open Scope string_scope.
Local Open Scope list_scope.

(** ** Strings

    A JavaScript string is embedded as a Rocq [string]; one character stands
    for one UTF-16 code unit below 256. *)

Definition newline : string := String (ascii_of_nat 10) EmptyString.
Definition dquote : string := String (ascii_of_nat 34) EmptyString.

(** JavaScript truthiness of a string: only the empty string is falsy. *)
Definition truthy (s : string) : bool :=
  match s with
  | EmptyString => false
  | String _ _ => true
  end.

(** The characters [String.prototype.trim] strips (WhiteSpace and
    LineTerminator of ECMAScript), among the code units below 256: TAB, LF,
    VT, FF, CR, SPACE and NO-BREAK SPACE. *)
Definition is_white_space (c : ascii) : bool :=
  let n := nat_of_ascii c in
  ((9 <=? n)%nat && (n <=? 13)%nat) || (n =? 32)%nat || (n =? 160)%nat.

Fixpoint trimStart (s : string) : string :=
  match s with
  | EmptyString => EmptyString
  | String c rest => if is_white_space c then trimStart rest else s
  end.

Definition trimEnd (s : string) : string :=
  String.rev (trimStart (String.rev s)).

Definition trim (s : string) : string := trimEnd (trimStart s).

(** ** The child-process primitive

    [exec] of Node's [child_process] is not code of this repository.  The
    handlers are studied on the runs of [exec] in which a child process is
    started, ends by exiting, and writes less than the buffer of [exec]
    holds.  On such a run the callback receives [(error, stdout, stderr)];
    [error] is [null] when the exit status is zero, and otherwise an [Error]
    whose [message] is built from the command and the captured standard
    error, and which carries the exit status as [code] and the command as
    [cmd].  The other ways a call of [exec] can come out (an exception
    before any child exists, an error for an overflow of the buffer although
    the child exited with status zero) are those of [Runner.Execution]
    below, where the runner is taken up again on its own. *)

Record ProcessResult : Type := mkProcessResult {
  exit_status : Z;
  captured_stdout : string;
  captured_stderr : string
}.

Record ExecException : Type := mkExecException {
  message : string;
  code : Z;
  cmd : string
}.

Definition exec_error (command : string) (r : ProcessResult) : ExecException :=
  {| message := "Command failed: " +:+ command +:+ newline +:+ captured_stderr r;
     code := exit_status r;
     cmd := command |}.

Definition exec_callback (command : string) (r : ProcessResult)
  : option ExecException * string * string :=
  if (exit_status r =? 0)%Z
  then (None, captured_stdout r, captured_stderr r)
  else (Some (exec_error command r), captured_stdout r, captured_stderr r).

(** What a promise of the runner can be rejected with: the literal string of
    the workspace check, or the error object of [exec]. *)
Inductive JsError : Type :=
| ErrString (s : string)
| ErrExec (e : ExecException).

(** The template expression [error.message || error] of every [catch]
    block, as the string it interpolates to.  A string has no [message]
    property; an [Error] with an empty message prints as its name. *)
Definition describe (error : JsError) : string :=
  match error with
  | ErrString s => s
  | ErrExec e => if truthy (message e) then message e else "Error"
  end.

(** ** The world *)

Inductive Event : Type :=
| EvInputBox (prompt : string) (placeHolder : option string) (answer : option string)
| EvWarningMessage (text : string) (modal : bool) (items : list string)
                   (answer : option string)
| EvInformationMessage (text : string)
| EvErrorMessage (text : string)
| EvProgress (title : string) (cancellable : bool)
| EvExec (command cwd : string) (r : ProcessResult)
| EvConsoleLog (text : string)
| EvConsoleError (text : string) (e : ExecException)
| EvStateUpdate (key value : string)
| EvExecuteCommand (command : string).

(** The environment of one handler invocation.  [workspaceFolders] is
    [vscode.workspace.workspaceFolders] ([None] for [undefined]), each folder
    given by its [uri.fsPath].  The three oracles answer from the history so
    far: what the user types in an input box ([None] when it is cancelled),
    which item the user picks in a warning dialog ([None] when it is
    dismissed), how a child process ends. *)
Record Env : Type := mkEnv {
  workspaceFolders : option (list string);
  inputBoxAnswer : list Event -> string -> option string;
  warningAnswer : list Event -> string -> list string -> option string;
  process : list Event -> string -> string -> ProcessResult
}.

(** The mutable part: the workspace-scoped key-value store
    ([context.workspaceState]) and the trace, oldest event first. *)
Record State : Type := mkState {
  workspaceState : gmap string string;
  trace : list Event
}.

Definition log (ev : Event) (st : State) : State :=
  {| workspaceState := workspaceState st; trace := trace st ++ [ev] |}.

(** ** Promises *)

Inductive Settled (A : Type) : Type :=
| Resolved (a : A)
| Rejected (error : JsError).
Arguments Resolved {A} a.
Arguments Rejected {A} error.

Definition Async (A : Type) : Type := State -> Settled A * State.

Definition resolve {A} (a : A) : Async A := fun st => (Resolved a, st).

Definition reject {A} (error : JsError) : Async A := fun st => (Rejected error, st).

(** [await m] followed by [k]: a rejection of [m] skips [k]. *)
Definition bind {A B} (m : Async A) (k : A -> Async B) : Async B :=
  fun st =>
    match m st with
    | (Resolved a, st') => k a st'
    | (Rejected error, st') => (Rejected error, st')
    end.

(** [try { body } catch (error) { handler }]. *)
Definition try_catch {A} (body : Async A) (handler : JsError -> Async A) : Async A :=
  fun st =>
    match body st with
    | (Resolved a, st') => (Resolved a, st')
    | (Rejected error, st') => handler error st'
    end.

Definition emit (ev : Event) : Async unit := fun st => (Resolved tt, log ev st).

Declare Scope async_scope.
Delimit Scope async_scope with async.
Notation "x <- m ;; k" := (bind m (fun x => k))
  (at level 100, m at next level, right associativity) : async_scope.
Notation "m ;; k" := (bind m (fun _ => k))
  (at level 100, right associativity) : async_scope.
Local Open Scope async_scope.

Section Extension.

Context (vscode : Env).

(** *** Editor and runtime primitives

    Each primitive records what it did in the trace.  The dialogs, the
    notifications and the workspace store always resolve: the only promises
    that reject in this program are those of [runCommand]. *)

Definition showInputBox (prompt : string) (placeHolder : option string)
  : Async (option string) :=
  fun st =>
    let answer := inputBoxAnswer vscode (trace st) prompt in
    (Resolved answer, log (EvInputBox prompt placeHolder answer) st).

Definition showWarningMessage (text : string) (modal : bool) (items : list string)
  : Async (option string) :=
  fun st =>
    let answer := warningAnswer vscode (trace st) text items in
    (Resolved answer, log (EvWarningMessage text modal items answer) st).

Definition showInformationMessage (text : string) : Async unit :=
  emit (EvInformationMessage text).

Definition showErrorMessage (text : string) : Async unit :=
  emit (EvErrorMessage text).

Definition withProgress (title : string) (cancellable : bool) : Async unit :=
  emit (EvProgress title cancellable).

Definition console_log (text : string) : Async unit := emit (EvConsoleLog text).

Definition console_error (text : string) (e : ExecException) : Async unit :=
  emit (EvConsoleError text e).

Definition executeCommand (command : string) : Async unit :=
  emit (EvExecuteCommand command).

(** [context.workspaceState.update(key, value)]. *)
Definition workspaceState_update (key value : string) : Async unit :=
  fun st =>
    (Resolved tt,
     {| workspaceState := <[key := value]> (workspaceState st);
        trace := trace st ++ [EvStateUpdate key value] |}).

(** [exec(command, { cwd }, callback)], on the runs described with
    [ProcessResult]: the process runs to its end and the callback arguments
    are returned. *)
Definition exec (command cwd : string)
  : Async (option ExecException * string * string) :=
  fun st =>
    let r := process vscode (trace st) command cwd in
    (Resolved (exec_callback command r), log (EvExec command cwd r) st).

(** [vscode.workspace.workspaceFolders?.[0]?.uri.fsPath]. *)
Definition workspaceFolder : option string :=
  match workspaceFolders vscode with
  | Some (folder :: _) => Some folder
  | _ => None
  end.

(** *** [runCommand] *)

Definition runCommand (command progressTitle : string) : Async string :=
  match workspaceFolder with
  | Some cwd =>
      if truthy cwd then
        withProgress progressTitle false ;;
        callback_args <- exec command cwd ;;
        let '(error, stdout, _) := callback_args in
        match error with
        | Some error =>
            console_error "Execution error object:" error ;;
            reject (ErrExec error)
        | None =>
            console_log ("Command output: " +:+ stdout) ;;
            resolve stdout
        end
      else reject (ErrString "Please open a project folder first.")
  | None => reject (ErrString "Please open a project folder first.")
  end.

(** *** Professor commands (combined extension) *)

Definition userName : string := "Afonso Miguel".
Definition userEmail : string := "afonso.miguel@pucpr.br".

(** The template literal [`https://github.com/afmiguel/${repoName}.git`] of
    [professorSetup] and [studentSetup]. *)
Definition repoUrl (repoName : string) : string :=
  "https://github.com/afmiguel/" +:+ repoName +:+ ".git".

Definition professorSetup : Async unit :=
  try_catch
    (repoName <- showInputBox "Enter the repository name"
       (Some "e.g., class-repo (must be created and empty on GitHub first)") ;;
     match repoName with
     | None => resolve tt
     | Some repoName =>
         if truthy repoName then
           let repoUrl := repoUrl repoName in
           runCommand ("git config --global user.name " +:+ dquote +:+ userName +:+ dquote)
             "Configuring user name..." ;;
           runCommand ("git config --global user.email " +:+ dquote +:+ userEmail +:+ dquote)
             "Configuring email..." ;;
           showInformationMessage ("Git configured globally for: " +:+ userName) ;;
           runCommand "git init" "Initializing local repository..." ;;
           try_catch
             (runCommand "git remote remove origin"
                "Cleaning up old remote configurations..." ;;
              resolve tt)
             (fun _ => console_log "No old 'origin' remote to remove, which is normal.") ;;
           runCommand ("git remote add origin " +:+ repoUrl)
             "Connecting to the remote repository..." ;;
           runCommand "git add ." "Adding files..." ;;
           runCommand
             ("git commit --allow-empty -m " +:+ dquote +:+ "Initial commit from Class Sync"
                +:+ dquote)
             "Making initial commit..." ;;
           output <- runCommand "git branch --show-current" "Checking current branch..." ;;
           let branchName := trim output in
           runCommand ("git push -u origin " +:+ branchName) "Pushing initial project..." ;;
           showInformationMessage "Repository configured and pushed successfully!"
         else resolve tt
     end)
    (fun error => showErrorMessage ("An error occurred: " +:+ describe error)).

Definition professorSync : Async unit :=
  try_catch
    (status <- runCommand "git status --porcelain" "Checking for changes..." ;;
     if String.eqb (trim status) EmptyString then
       showInformationMessage "No new changes to send."
     else
       runCommand "git add ." "Adding changes..." ;;
       runCommand ("git commit -m " +:+ dquote +:+ "Update from professor" +:+ dquote)
         "Committing changes..." ;;
       runCommand "git push" "Pushing updates..." ;;
       showInformationMessage "Update pushed successfully!")
    (fun error => showErrorMessage ("Failed to push update: " +:+ describe error)).

(** *** Student commands (both extensions) *)

Definition studentSetup : Async unit :=
  try_catch
    (repoName <- showInputBox "Enter the name of the professor's repository" None ;;
     match repoName with
     | None => resolve tt
     | Some repoName =>
         if truthy repoName then
           let repoUrl := repoUrl repoName in
           runCommand ("git clone " +:+ repoUrl +:+ " .")
             "Cloning the professor's project..." ;;
           workspaceState_update "repoUrl" repoUrl ;;
           showInformationMessage
             "Professor's project cloned successfully! The window will now reload." ;;
           executeCommand "workbench.action.reloadWindow"
         else resolve tt
     end)
    (fun error => showErrorMessage ("Failed to clone repository: " +:+ describe error)).

(** [confirmation === 'Yes, reset my work'], with [None] for [undefined]. *)
Definition strict_equal (x : option string) (s : string) : bool :=
  match x with
  | Some y => String.eqb y s
  | None => false
  end.

Definition studentResync : Async unit :=
  confirmation <- showWarningMessage
    "This will discard ALL your local changes and download the professor's latest version. Are you sure?"
    true ["Yes, reset my work"] ;;
  if strict_equal confirmation "Yes, reset my work" then
    try_catch
      (runCommand "git fetch origin" "Fetching professor's version..." ;;
       output <- runCommand "git branch --show-current" "Checking current branch..." ;;
       let branchName := trim output in
       runCommand ("git reset --hard origin/" +:+ branchName)
         "Resetting to professor's version..." ;;
       runCommand "git clean -fd" "Cleaning untracked files..." ;;
       showInformationMessage "Project synced successfully!")
      (fun error => showErrorMessage ("Failed to sync: " +:+ describe error))
  else resolve tt.

End Extension.

(** ** Reading a trace *)

(** The shell commands of a trace, in the order they were executed. *)
Fixpoint commands (evs : list Event) : list string :=
  match evs with
  | [] => []
  | EvExec command _ _ :: rest => command :: commands rest
  | _ :: rest => commands rest
  end.

(** The texts of the error notifications of a trace. *)
Fixpoint error_messages (evs : list Event) : list string :=
  match evs with
  | [] => []
  | EvErrorMessage text :: rest => text :: error_messages rest
  | _ :: rest => error_messages rest
  end.

(** The texts of the information notifications of a trace. *)
Fixpoint information_messages (evs : list Event) : list string :=
  match evs with
  | [] => []
  | EvInformationMessage text :: rest => text :: information_messages rest
  | _ :: rest => information_messages rest
  end.

(** The events a computation adds to the trace of the state it starts in. *)
Definition emitted {A} (m : Async A) (st : State) : list Event :=
  drop (List.length (trace st)) (trace (snd (m st))).

(** The shell commands of a trace with how each one ended. *)
Fixpoint executions (evs : list Event) : list (string * ProcessResult) :=
  match evs with
  | [] => []
  | EvExec command _ r :: rest => (command, r) :: executions rest
  | _ :: rest => executions rest
  end.

(** A state with more events at the end of its trace. *)
Definition extend (evs : list Event) (st : State) : State :=
  {| workspaceState := workspaceState st; trace := trace st ++ evs |}.

(** The folder [runCommand] runs in, once its check [!workspaceFolder] has
    passed: a first folder whose path is not the empty string. *)
Definition open_folder (vscode : Env) : option string :=
  match workspaceFolder vscode with
  | Some cwd => if truthy cwd then Some cwd else None
  | None => None
  end.

(** ** Scenarios

    Concrete environments on which the handlers are run: a folder list, what
    the user types and picks, and a shell that answers by command alone. *)

Definition exits_ok (output : string) : ProcessResult :=
  {| exit_status := 0; captured_stdout := output; captured_stderr := EmptyString |}.

Definition exits_with (status : Z) (diagnostic : string) : ProcessResult :=
  {| exit_status := status; captured_stdout := EmptyString; captured_stderr := diagnostic |}.

(** Every git command succeeds; the current branch is [main] and one file of
    the working tree is modified. *)
Definition git_ok (command : string) : ProcessResult :=
  if String.eqb command "git branch --show-current" then exits_ok ("main" +:+ newline)
  else if String.eqb command "git status --porcelain" then
    exits_ok (" M notes.txt" +:+ newline)
  else exits_ok EmptyString.

(** As [git_ok], with a clean working tree. *)
Definition git_clean_tree (command : string) : ProcessResult :=
  if String.eqb command "git status --porcelain" then exits_ok EmptyString
  else git_ok command.

(** As [git_ok], except that one command fails. *)
Definition git_failing (bad : string) (status : Z) (diagnostic : string)
    (command : string) : ProcessResult :=
  if String.eqb command bad then exits_with status diagnostic else git_ok command.

Definition scenario (folders : option (list string)) (typed picked : option string)
    (shell : string -> ProcessResult) : Env :=
  {| workspaceFolders := folders;
     inputBoxAnswer := fun _ _ => typed;
     warningAnswer := fun _ _ _ => picked;
     process := fun _ command _ => shell command |}.

Definition fresh_state : State := {| workspaceState := ∅; trace := [] |}.

Definition class_folder : option (list string) := Some ["/home/user/class"].

(** A professor with changes to send, and one with none. *)
Definition professor_at_work : Env := scenario class_folder None None git_ok.

Definition professor_idle : Env := scenario class_folder None None git_clean_tree.

(** A student who types the name of the class repository. *)
Definition student_arrives : Env := scenario class_folder (Some "class-repo") None git_ok.

(** The same, with no folder open in the editor. *)
Definition nothing_open : Env := scenario None (Some "class-repo") None git_ok.

(** ** Statements about runs *)

(** The professor sync command after a non-empty status: the reading under
    which every such invocation runs the status query, then add, commit and
    push, all of them. *)
Definition always_add_commit_push (vscode : Env) (st : State) : Prop :=
  forall status st1,
    runCommand vscode "git status --porcelain" "Checking for changes..." st
    = (Resolved status, st1) ->
    trim status <> EmptyString ->
    commands (emitted (professorSync vscode) st)
    = ["git status --porcelain"; "git add .";
       "git commit -m " +:+ dquote +:+ "Update from professor" +:+ dquote;
       "git push"].

(** A professor whose commit is refused (no author identity configured). *)
Definition commit_refused : Env :=
  scenario class_folder None None
    (git_failing ("git commit -m " +:+ dquote +:+ "Update from professor" +:+ dquote)
       128 "fatal: unable to auto-detect email address").

(** What a failing process leaves at the end of a handler's trace: the
    console line of the runner, then the error notification of the [catch]
    block, whose text starts with the handler's [prefix]. *)
Definition failure_report (prefix command : string) (r : ProcessResult) : list Event :=
  [EvConsoleError "Execution error object:" (exec_error command r);
   EvErrorMessage (prefix +:+ describe (ErrExec (exec_error command r)))].

(** Wherever a command exits with a status other than zero, and the command
    is not a [tolerated] one, the events after it are its failure report and
    nothing else: the error is shown, and no further command runs (none
    after it, none to undo, none again). *)
Definition stops_at_failure (tolerated : string -> bool) (prefix : string)
    (evs : list Event) : Prop :=
  forall pre command cwd r post,
    evs = pre ++ EvExec command cwd r :: post ->
    exit_status r <> 0%Z ->
    tolerated command = false ->
    post = failure_report prefix command r.

(** The reading with no exception: after any command that exits with a
    status other than zero an error notification is shown and no command
    runs. *)
Definition fails_fast (evs : list Event) : Prop :=
  forall pre command cwd r post,
    evs = pre ++ EvExec command cwd r :: post ->
    exit_status r <> 0%Z ->
    error_messages post <> [] /\ commands post = [].

(** What a handler emits after its dialog when the runner finds no folder:
    the error notification alone. *)
Definition no_folder_report (prefix : string) : list Event :=
  [EvErrorMessage (prefix +:+ "Please open a project folder first.")].

(** A property of every command execution of a trace and of what follows
    it. *)
Fixpoint after_each_exec (P : string -> string -> ProcessResult -> list Event -> Prop)
    (evs : list Event) : Prop :=
  match evs with
  | [] => True
  | EvExec command cwd r :: rest => P command cwd r rest /\ after_each_exec P rest
  | _ :: rest => after_each_exec P rest
  end.

(** The workspace-state updates of a trace, oldest first. *)
Fixpoint state_updates (evs : list Event) : list (string * string) :=
  match evs with
  | [] => []
  | EvStateUpdate key value :: rest => (key, value) :: state_updates rest
  | _ :: rest => state_updates rest
  end.

(** A property of every way to cut a list at one of its elements; [done] is
    what has been passed already. *)
Fixpoint each_split {A} (P : list A -> A -> list A -> Prop) (done evs : list A) : Prop :=
  match evs with
  | [] => True
  | ev :: rest => P done ev rest /\ each_split P (done ++ [ev]) rest
  end.

(** A professor who sets up a folder that has no [origin] remote yet. *)
Definition no_origin_yet : Env :=
  scenario class_folder (Some "class-repo") None
    (git_failing "git remote remove origin" 2 "error: No such remote: 'origin'").

(** ** Activation and the status bar

    [activate] of both extensions, with the two status-bar buttons of the
    student extension and [updateStatusBarVisibility].  A handler is
    registered as a function of the environment it will be invoked in. *)

Inductive StatusBarAlignment : Type := AlignLeft | AlignRight.

(** A status-bar item; [createStatusBarItem] gives a hidden item with no
    command and no tooltip. *)
Record StatusBarItem : Type := mkStatusBarItem {
  item_alignment : StatusBarAlignment;
  item_priority : Z;
  item_command : option string;
  item_text : string;
  item_tooltip : option string;
  item_visible : bool
}.

Definition createStatusBarItem (alignment : StatusBarAlignment) (priority : Z)
  : StatusBarItem :=
  {| item_alignment := alignment; item_priority := priority; item_command := None;
     item_text := EmptyString; item_tooltip := None; item_visible := false |}.

Definition set_command (id : string) (item : StatusBarItem) : StatusBarItem :=
  {| item_alignment := item_alignment item; item_priority := item_priority item;
     item_command := Some id; item_text := item_text item;
     item_tooltip := item_tooltip item; item_visible := item_visible item |}.

Definition set_text (text : string) (item : StatusBarItem) : StatusBarItem :=
  {| item_alignment := item_alignment item; item_priority := item_priority item;
     item_command := item_command item; item_text := text;
     item_tooltip := item_tooltip item; item_visible := item_visible item |}.

Definition set_tooltip (tooltip : string) (item : StatusBarItem) : StatusBarItem :=
  {| item_alignment := item_alignment item; item_priority := item_priority item;
     item_command := item_command item; item_text := item_text item;
     item_tooltip := Some tooltip; item_visible := item_visible item |}.

Definition set_visible (shown : bool) (item : StatusBarItem) : StatusBarItem :=
  {| item_alignment := item_alignment item; item_priority := item_priority item;
     item_command := item_command item; item_text := item_text item;
     item_tooltip := item_tooltip item; item_visible := shown |}.

Definition show : StatusBarItem -> StatusBarItem := set_visible true.
Definition hide : StatusBarItem -> StatusBarItem := set_visible false.

Record Buttons : Type := mkButtons {
  cloneButton : StatusBarItem;
  resetButton : StatusBarItem
}.

(** Node's [path.join] and [fs.existsSync], as the file system answers. *)
Record FileSystem : Type := mkFileSystem {
  path_join : string -> string -> string;
  existsSync : string -> bool
}.

Definition updateStatusBarVisibility (vscode : Env) (fs : FileSystem) (b : Buttons)
  : Buttons :=
  match workspaceFolder vscode with
  | Some folder =>
      if truthy folder then
        let gitPath := path_join fs folder ".git" in
        if existsSync fs gitPath then
          {| resetButton := show (resetButton b); cloneButton := hide (cloneButton b) |}
        else
          {| cloneButton := show (cloneButton b); resetButton := hide (resetButton b) |}
      else {| cloneButton := hide (cloneButton b); resetButton := hide (resetButton b) |}
  | None => {| cloneButton := hide (cloneButton b); resetButton := hide (resetButton b) |}
  end.

(** What [context.subscriptions] holds. *)
Inductive Subscription : Type :=
| SubCloneButton
| SubResetButton
| SubFolderListener
| SubCommand (id : string).

(** What [activate] leaves behind: the console line, the registered
    commands and the subscriptions, in the order they were made. *)
Record Registration : Type := mkRegistration {
  console : list string;
  registered : list (string * (Env -> Async unit));
  subscriptions : list Subscription
}.

(** [vscode.commands.executeCommand(id)] on a registry: the first handler
    registered under [id]. *)
Fixpoint handler_of (id : string) (registry : list (string * (Env -> Async unit)))
  : option (Env -> Async unit) :=
  match registry with
  | [] => None
  | (id', handler) :: rest => if String.eqb id id' then Some handler else handler_of id rest
  end.

(** [activate] of the student extension, in the world it starts in. *)
Definition student_activate (vscode : Env) (fs : FileSystem) : Buttons * Registration :=
  let cloneButton :=
    set_tooltip "Clone the professor's repository to start"
      (set_text "$(repo-clone) Class Sync: Clone"
         (set_command "class-sync.studentSetup" (createStatusBarItem AlignLeft 100))) in
  let resetButton :=
    set_tooltip "Reset local changes to the professor's latest version"
      (set_text "$(debug-restart) Class Sync: Reset"
         (set_command "class-sync.studentResync" (createStatusBarItem AlignLeft 101))) in
  let buttons :=
    updateStatusBarVisibility vscode fs
      {| cloneButton := cloneButton; resetButton := resetButton |} in
  (buttons,
   {| console :=
        ["The " +:+ dquote +:+ "Class Sync - Student" +:+ dquote
           +:+ " extension is now active."];
      registered :=
        [("class-sync.studentSetup", studentSetup);
         ("class-sync.studentResync", studentResync)];
      subscriptions :=
        [SubCloneButton; SubResetButton; SubFolderListener;
         SubCommand "class-sync.studentSetup"; SubCommand "class-sync.studentResync"] |}).

(** The listener of [onDidChangeWorkspaceFolders]: the buttons in the new
    world. *)
Definition onDidChangeWorkspaceFolders (vscode : Env) (fs : FileSystem) (b : Buttons)
  : Buttons :=
  updateStatusBarVisibility vscode fs b.

(** [activate] of the combined extension. *)
Definition activate : Registration :=
  {| console :=
       ["The " +:+ dquote +:+ "Class Sync" +:+ dquote +:+ " extension is now active."];
     registered :=
       [("class-sync.professorSetup", professorSetup);
        ("class-sync.professorSync", professorSync);
        ("class-sync.studentSetup", studentSetup);
        ("class-sync.studentResync", studentResync)];
     subscriptions :=
       [SubCommand "class-sync.professorSetup"; SubCommand "class-sync.professorSync";
        SubCommand "class-sync.studentSetup"; SubCommand "class-sync.studentResync"] |}.

(** ** The companion batch script

    The script that prepares a student machine, as the sequence of actions
    it performs.  Its control flow depends on what the student types, on the
    [errorlevel] left by three external commands and on two [if exist]
    tests; these are oracles of the console, asked with the actions done so
    far, and every answer is recorded with the action.  [mkdir], [cd],
    [rmdir] and [del] are recorded as issued: the script never looks at
    their outcome.  The typed name is substituted into the script text as it
    is, so the embedding speaks for names without characters that the
    command interpreter reads ([plain_name]), as repository names are. *)

Module SetupScript.

Definition GITHUB_USER : string := "afmiguel".
Definition EXTENSION_ID : string := "SeuPublisher.class-sync-student".
Definition EXTENSION_URL : string :=
  "https://arquivos.afonso.prof/class-sync-student-0.0.1.vsix".
Definition VSIX_FILENAME : string := "class-sync-student.vsix".

Inductive Action : Type :=
| Echo (line : string)
| SetP (prompt value : string)
| Run (commandLine : string) (errorlevel : Z)
| IfExist (path : string) (found : bool)
| Mkdir (dir : string)
| Cd (dir : string)
| Rmdir (dir : string)
| Del (file : string)
| Pause.

(** [REPO_NAME] is the value of the variable after [set /p] (empty when
    nothing was typed). *)
Record Console : Type := mkConsole {
  REPO_NAME : string;
  errorlevel : list Action -> string -> Z;
  exist : list Action -> string -> bool
}.

(** A piece of script: from the actions done so far to a value, or [None]
    after [goto :end], and the actions done. *)
Definition Batch (A : Type) : Type := list Action -> option A * list Action.

Definition ret {A} (a : A) : Batch A := fun done => (Some a, done).

Definition bind {A B} (m : Batch A) (k : A -> Batch B) : Batch B :=
  fun done =>
    match m done with
    | (Some a, done') => k a done'
    | (None, done') => (None, done')
    end.

Definition goto_end {A} : Batch A := fun done => (None, done).

Definition act (a : Action) : Batch unit := fun done => (Some tt, done ++ [a]).

Declare Scope batch_scope.
Delimit Scope batch_scope with batch.
Notation "x <- m ;; k" := (bind m (fun x => k))
  (at level 100, m at next level, right associativity) : batch_scope.
Notation "m ;; k" := (bind m (fun _ => k))
  (at level 100, right associativity) : batch_scope.
Local Open Scope batch_scope.

Section Script.

Context (c : Console).

Definition echo (line : string) : Batch unit := act (Echo line).

Definition set_p (prompt : string) : Batch string :=
  fun done => (Some (REPO_NAME c), done ++ [SetP prompt (REPO_NAME c)]).

(** An external command; the value is the [errorlevel] it leaves. *)
Definition run (commandLine : string) : Batch Z :=
  fun done =>
    let code := errorlevel c done commandLine in
    (Some code, done ++ [Run commandLine code]).

Definition if_exist (path : string) : Batch bool :=
  fun done =>
    let found := exist c done path in
    (Some found, done ++ [IfExist path found]).

Definition rule : string := "==========================================================".

Definition quoted (s : string) : string := dquote +:+ s +:+ dquote.

(** The script up to the label [:end]. *)
Definition setup_body : Batch unit :=
  echo rule ;;
  echo "   Configurador de Ambiente de Aula - Class Sync" ;;
  echo rule ;;
  echo EmptyString ;;
  REPO_NAME <- set_p "Digite o nome do repositorio da aula e pressione Enter: " ;;
  (if String.eqb REPO_NAME EmptyString then
     echo EmptyString ;;
     echo "[ERRO] Nenhum nome de repositorio foi digitado." ;;
     goto_end
   else ret tt) ;;
  echo EmptyString ;;
  echo ("[+] Verificando se o repositorio '" +:+ REPO_NAME +:+ "' existe no GitHub...") ;;
  let REPO_URL := "https://github.com/" +:+ GITHUB_USER +:+ "/" +:+ REPO_NAME +:+ ".git" in
  code <- run ("git ls-remote " +:+ quoted REPO_URL) ;;
  (if negb (code =? 0)%Z then
     echo EmptyString ;;
     echo ("[ERRO] Repositorio '" +:+ REPO_NAME +:+ "' nao encontrado no GitHub.") ;;
     echo "Verifique se voce digitou o nome corretamente." ;;
     goto_end
   else ret tt) ;;
  echo "[INFO] Repositorio encontrado. Prosseguindo com a configuracao..." ;;
  found <- if_exist REPO_NAME ;;
  (if found then
     echo EmptyString ;;
     echo ("[AVISO] A pasta '" +:+ REPO_NAME +:+ "' ja existe. O script nao fara nada.") ;;
     goto_end
   else ret tt) ;;
  echo EmptyString ;;
  echo ("[+] Criando a pasta '" +:+ REPO_NAME +:+ "'...") ;;
  act (Mkdir REPO_NAME) ;;
  act (Cd REPO_NAME) ;;
  echo "[+] Baixando o projeto do professor..." ;;
  code <- run ("git clone " +:+ quoted REPO_URL +:+ " .") ;;
  (if negb (code =? 0)%Z then
     echo EmptyString ;;
     echo "[ERRO] Falha ao clonar o repositorio." ;;
     act (Cd "..") ;;
     act (Rmdir REPO_NAME) ;;
     goto_end
   else ret tt) ;;
  echo "[+] Projeto baixado com sucesso!" ;;
  echo EmptyString ;;
  echo "[+] Verificando a extensao Class Sync - Student..." ;;
  code <- run ("code --list-extensions | findstr /I /C:" +:+ quoted EXTENSION_ID) ;;
  (if (code =? 0)%Z then
     echo "[INFO] A extensao ja esta instalada."
   else
     echo "[INFO] A extensao nao foi encontrada. Instalando agora..." ;;
     echo "[+] Baixando o instalador da extensao..." ;;
     run ("powershell -Command " +:+ quoted ("Invoke-WebRequest -Uri '" +:+ EXTENSION_URL
            +:+ "' -OutFile '" +:+ VSIX_FILENAME +:+ "'")) ;;
     found <- if_exist VSIX_FILENAME ;;
     (if negb found then
        echo "[ERRO] Falha ao baixar a extensao. Verifique a URL e sua conexao." ;;
        goto_end
      else ret tt) ;;
     echo "[+] Instalando..." ;;
     run ("code --install-extension " +:+ quoted VSIX_FILENAME +:+ " --wait") ;;
     echo "[+] Limpando arquivos temporarios..." ;;
     act (Del VSIX_FILENAME) ;;
     echo "[+] Extensao instalada com sucesso!") ;;
  echo EmptyString ;;
  echo rule ;;
  echo "   Configuracao concluida! Abrindo o VS Code..." ;;
  echo rule ;;
  run "code ." ;;
  ret tt.

(** The whole script: the body, then the label [:end]. *)
Definition setup_script : list Action :=
  snd (setup_body []) ++ [Echo EmptyString; Pause].

End Script.

(** What a run did to the machine: its actions other than output, input
    and tests. *)
Fixpoint effects (acts : list Action) : list Action :=
  match acts with
  | [] => []
  | Echo _ :: rest | SetP _ _ :: rest | IfExist _ _ :: rest | Pause :: rest => effects rest
  | a :: rest => a :: effects rest
  end.

(** The characters of a repository name. *)
Definition name_char (ch : ascii) : bool :=
  let n := nat_of_ascii ch in
  ((48 <=? n)%nat && (n <=? 57)%nat) || ((65 <=? n)%nat && (n <=? 90)%nat)
  || ((97 <=? n)%nat && (n <=? 122)%nat)
  || (n =? 45)%nat || (n =? 46)%nat || (n =? 95)%nat.

Fixpoint plain_name (s : string) : bool :=
  match s with
  | EmptyString => true
  | String ch rest => name_char ch && plain_name rest
  end.

(** A console that answers by command line and by path alone. *)
Definition console (typed : string) (exit_of : string -> Z) (present : string -> bool)
  : Console :=
  {| REPO_NAME := typed;
     errorlevel := fun _ commandLine => exit_of commandLine;
     exist := fun _ path => present path |}.

End SetupScript.

(** ** More statements about runs *)

(** At most one error notification, which is then the last event, and with
    which the handler's [success] notification is not shown. *)
Definition error_is_final (success : string) (evs : list Event) : Prop :=
  error_messages evs = []
  \/ exists text,
       error_messages evs = [text]
       /\ last evs = Some (EvErrorMessage text)
       /\ ~ In success (information_messages evs).

(** The [success] notification is shown only after [steps] commands have
    run and each of them, the [tolerated] ones apart, has exited with status
    zero. *)
Definition success_is_earned (success : string) (steps : nat)
    (tolerated : string -> bool) (evs : list Event) : Prop :=
  In success (information_messages evs) ->
  List.length (executions evs) = steps
  /\ forall command r,
       In (command, r) (executions evs) -> tolerated command = false ->
       exit_status r = 0%Z.

(** Every command of the trace runs in the folder [cwd], right after a
    progress notification that cannot be cancelled. *)
Definition runs_in_folder (cwd : option string) (evs : list Event) : Prop :=
  forall pre command dir r post,
    evs = pre ++ EvExec command dir r :: post ->
    cwd = Some dir /\ exists title, last pre = Some (EvProgress title false).

(** ** Command lines and consoles of the batch script *)

(** The command lines of the script, with the remote named as the
    extension names it ([repoUrl]). *)
Definition ls_remote_line (name : string) : string :=
  "git ls-remote " +:+ dquote +:+ repoUrl name +:+ dquote.

Definition clone_line (name : string) : string :=
  "git clone " +:+ (dquote +:+ repoUrl name +:+ dquote) +:+ " .".

Definition list_extensions_line : string :=
  "code --list-extensions | findstr /I /C:" +:+ dquote
    +:+ "SeuPublisher.class-sync-student" +:+ dquote.

Definition download_line : string :=
  "powershell -Command " +:+ dquote
    +:+ "Invoke-WebRequest -Uri 'https://arquivos.afonso.prof/class-sync-student-0.0.1.vsix' -OutFile 'class-sync-student.vsix'"
    +:+ dquote.

Definition install_line : string :=
  "code --install-extension " +:+ dquote +:+ "class-sync-student.vsix" +:+ dquote
    +:+ " --wait".

(** A console on which the commands starting with [bad] leave [errorlevel]
    1 and every other one leaves 0. *)
Definition failing_at (bad : string) (commandLine : string) : Z :=
  if String.prefix bad commandLine then 1%Z else 0%Z.

Definition nothing_typed : SetupScript.Console :=
  SetupScript.console EmptyString (fun _ => 0%Z) (fun _ => false).

Definition repository_missing : SetupScript.Console :=
  SetupScript.console "class-repo" (failing_at "git ls-remote") (fun _ => false).

Definition folder_present : SetupScript.Console :=
  SetupScript.console "class-repo" (fun _ => 0%Z) (String.eqb "class-repo").

Definition clone_refused : SetupScript.Console :=
  SetupScript.console "class-repo" (failing_at "git clone") (fun _ => false).

(** The extension is not installed yet; the installer arrives, or not. *)
Definition new_machine : SetupScript.Console :=
  SetupScript.console "class-repo" (failing_at "code --list-extensions")
    (String.eqb "class-sync-student.vsix").

Definition new_machine_offline : SetupScript.Console :=
  SetupScript.console "class-repo" (failing_at "code --list-extensions") (fun _ => false).

(** ** The runner and every outcome of [exec]

    [runCommand] once more, by itself, with all that a call of [exec] can
    come to.  [exec] is called inside the task given to [withProgress], which
    nothing awaits: when [exec] throws (a command that the runtime refuses,
    a child that cannot be created) neither [resolve] nor [reject] is ever
    called and the promise of the runner stays pending.  Otherwise the
    callback runs once, and it is given an error also when the command has
    exited with status zero but has written more than the buffer of [exec]
    holds (1 MiB, as [runCommand] passes [cwd] and nothing else). *)

Module Runner.

(** The [code] of an error of [exec]: the exit status of the command, or
    the name of a system or runtime error. *)
Inductive ErrorCode : Type :=
| ExitCode (status : Z)
| SystemCode (name : string).

Record ExecError : Type := mkExecError {
  error_message : string;
  error_code : ErrorCode;
  error_cmd : string
}.

(** What a call of [exec] comes to: an exception, or the arguments of the
    callback, with the status the command exited with, if it did exit. *)
Inductive Execution : Type :=
| Throws
| Calls (error : option ExecError) (stdout stderr : string) (exit_status : option Z).


Inductive Reason : Type :=
| ReasonString (s : string)
| ReasonError (e : ExecError).

Inductive Promise (A : Type) : Type :=
| Fulfilled (a : A)
| RejectedWith (reason : Reason)
| Pending.
Arguments Fulfilled {A} a.
Arguments RejectedWith {A} reason.
Arguments Pending {A}.

Inductive Effect : Type :=
| Progress (title : string) (cancellable : bool)
| ExecCall (command cwd : string)
| ConsoleError (text : string) (e : ExecError)
| ConsoleLog (text : string).

(** [runCommand]: the promise it returns and what it does, given the first
    workspace folder and what [exec] comes to. *)
Definition runCommand (vscode : Env) (exec : string -> string -> Execution)
    (command progressTitle : string) : Promise string * list Effect :=
  match workspaceFolder vscode with
  | Some cwd =>
      if truthy cwd then
        match exec command cwd with
        | Throws => (Pending, [Progress progressTitle false; ExecCall command cwd])
        | Calls (Some error) _ _ _ =>
            (RejectedWith (ReasonError error),
             [Progress progressTitle false; ExecCall command cwd;
              ConsoleError "Execution error object:" error])
        | Calls None stdout _ _ =>
            (Fulfilled stdout,
             [Progress progressTitle false; ExecCall command cwd;
              ConsoleLog ("Command output: " +:+ stdout)])
        end
      else (RejectedWith (ReasonString "Please open a project folder first."), [])
  | None => (RejectedWith (ReasonString "Please open a project folder first."), [])
  end.


(** The runs of the first part, among all: the child exits with the status
    of [r] and its output fits the buffer. *)
Definition plain (command : string) (r : ProcessResult) : Execution :=
  Calls
    (if (exit_status r =? 0)%Z then None
     else Some {| error_message :=
                    "Command failed: " +:+ command +:+ newline +:+ captured_stderr r;
                  error_code := ExitCode (exit_status r);
                  error_cmd := command |})
    (captured_stdout r) (captured_stderr r) (Some (exit_status r)).



End Runner.

(** A settled promise of the first part, as a promise of [Runner]. *)
Definition promise_of (s : Settled string) : Runner.Promise string :=
  match s with
  | Resolved output => Runner.Fulfilled output
  | Rejected (ErrString text) => Runner.RejectedWith (Runner.ReasonString text)
  | Rejected (ErrExec e) =>
      Runner.RejectedWith
        (Runner.ReasonError
           {| Runner.error_message := message e;
              Runner.error_code := Runner.ExitCode (code e);
              Runner.error_cmd := cmd e |})
  end.


(** * Properties *)

Section Runner.

Context (vscode : Env).

Lemma extend_nil st : extend [] st = st.
Proof. destruct st as [ws tr]. unfold extend; simpl. by rewrite app_nil_r. Qed.

Lemma extend_extend evs1 evs2 st :
  extend evs2 (extend evs1 st) = extend (evs1 ++ evs2) st.
Proof. unfold extend; simpl. by rewrite app_assoc. Qed.

Lemma log_extend ev evs st : log ev (extend evs st) = extend (evs ++ [ev]) st.
Proof. unfold log, extend; simpl. by rewrite app_assoc. Qed.

Lemma log_as_extend ev st : log ev st = extend [ev] st.
Proof. reflexivity. Qed.

Lemma emitted_extend {A} (m : Async A) st res evs :
  m st = (res, extend evs st) -> emitted m st = evs.
Proof.
  intros Hrun. unfold emitted. rewrite Hrun. simpl. apply drop_app_length.
Qed.

Lemma emitted_eq {A} (m : Async A) st res evs :
  m st = (res, extend evs st) ->
  emitted m st = evs /\ workspaceState (snd (m st)) = workspaceState st.
Proof.
  intros Hrun. split; [by eapply emitted_extend|]. by rewrite Hrun.
Qed.

Lemma open_folder_Some cwd :
  open_folder vscode = Some cwd <->
  workspaceFolder vscode = Some cwd /\ truthy cwd = true.
Proof.
  unfold open_folder. split.
  - destruct (workspaceFolder vscode) as [d|]; [|discriminate].
    destruct (truthy d) eqn:Hd; [|discriminate]. intros [= ->]. done.
  - intros [-> ->]. done.
Qed.

(** The runner without a usable folder: rejected at once, nothing done. *)
Lemma runCommand_closed command progressTitle st :
  open_folder vscode = None ->
  runCommand vscode command progressTitle st
  = (Rejected (ErrString "Please open a project folder first."), st).
Proof.
  unfold open_folder, runCommand. intros Hclosed.
  destruct (workspaceFolder vscode) as [cwd|]; [|reflexivity].
  destruct (truthy cwd); [discriminate|reflexivity].
Qed.

(** The runner in an open folder: one progress notification, one child
    process, one console line, and a promise settled by the exit status. *)
Lemma runCommand_open cwd command progressTitle st :
  open_folder vscode = Some cwd ->
  runCommand vscode command progressTitle st
  = let r := process vscode (trace st ++ [EvProgress progressTitle false]) command cwd in
    if (exit_status r =? 0)%Z
    then (Resolved (captured_stdout r),
          extend [EvProgress progressTitle false; EvExec command cwd r;
                  EvConsoleLog ("Command output: " +:+ captured_stdout r)] st)
    else (Rejected (ErrExec (exec_error command r)),
          extend [EvProgress progressTitle false; EvExec command cwd r;
                  EvConsoleError "Execution error object:" (exec_error command r)] st).
Proof.
  intros [Hfolder Hpath]%open_folder_Some.
  unfold runCommand. rewrite Hfolder, Hpath.
  cbv [bind withProgress exec emit console_log console_error resolve reject
         exec_callback log extend].
  cbn [trace workspaceState].
  destruct (exit_status _ =? 0)%Z; cbn [trace workspaceState];
    by rewrite <- !app_assoc.
Qed.

(** C5. For every command string and progress title, when no workspace
    folder is open (the folder list is undefined or empty) the runner rejects
    with the text asking to open a project folder first, and leaves the world
    as it was: no progress notification, no child process. *)
Theorem runCommand_rejects_without_folder command progressTitle st :
  workspaceFolders vscode = None \/ workspaceFolders vscode = Some [] ->
  runCommand vscode command progressTitle st
  = (Rejected (ErrString "Please open a project folder first."), st)
  /\ commands (emitted (runCommand vscode command progressTitle) st) = [].
Proof.
  intros Hnone.
  assert (Hclosed : open_folder vscode = None).
  { unfold open_folder, workspaceFolder. by destruct Hnone as [-> | ->]. }
  pose proof (runCommand_closed command progressTitle st Hclosed) as Hrun.
  split; [exact Hrun|].
  rewrite <- (extend_nil st) in Hrun at 2.
  by rewrite (emitted_extend _ _ _ _ Hrun).
Qed.

(** What a settled runner promise says about the world. *)
Lemma runCommand_resolved command progressTitle st output st1 :
  runCommand vscode command progressTitle st = (Resolved output, st1) ->
  exists cwd,
    open_folder vscode = Some cwd
    /\ let r := process vscode (trace st ++ [EvProgress progressTitle false]) command cwd in
       (exit_status r =? 0)%Z = true
       /\ output = captured_stdout r
       /\ st1 = extend [EvProgress progressTitle false; EvExec command cwd r;
                        EvConsoleLog ("Command output: " +:+ captured_stdout r)] st.
Proof.
  destruct (open_folder vscode) as [cwd|] eqn:Hopen.
  - rewrite (runCommand_open cwd _ _ _ Hopen). cbv zeta.
    destruct (exit_status _ =? 0)%Z eqn:Hexit; [|discriminate].
    intros [= <- <-]. exists cwd. cbv zeta. by rewrite Hexit.
  - by rewrite (runCommand_closed _ _ _ Hopen).
Qed.

Lemma runCommand_rejected command progressTitle st error st1 :
  runCommand vscode command progressTitle st = (Rejected error, st1) ->
  (open_folder vscode = None
   /\ error = ErrString "Please open a project folder first." /\ st1 = st)
  \/ exists cwd,
       open_folder vscode = Some cwd
       /\ let r := process vscode (trace st ++ [EvProgress progressTitle false]) command cwd in
          (exit_status r =? 0)%Z = false
          /\ error = ErrExec (exec_error command r)
          /\ st1 = extend [EvProgress progressTitle false; EvExec command cwd r;
                           EvConsoleError "Execution error object:"
                             (exec_error command r)] st.
Proof.
  destruct (open_folder vscode) as [cwd|] eqn:Hopen.
  - rewrite (runCommand_open cwd _ _ _ Hopen). cbv zeta.
    destruct (exit_status _ =? 0)%Z eqn:Hexit; [discriminate|].
    intros [= <- <-]. right. exists cwd. cbv zeta. by rewrite Hexit.
  - rewrite (runCommand_closed _ _ _ Hopen). intros [= <- <-]. by left.
Qed.

End Runner.

(** ** Symbolic execution of the handlers *)

(** Unfolds the monad and the editor primitives, keeping [runCommand]. *)
Ltac unfold_async :=
  cbv [bind try_catch resolve reject emit showInputBox showWarningMessage
       showInformationMessage showErrorMessage console_log executeCommand
       workspaceState_update];
  rewrite ?log_as_extend.

(** Brings nested extensions of a state to the form [extend evs st]. *)
Ltac tidy :=
  cbn beta iota zeta;
  rewrite ?log_as_extend, ?extend_extend;
  cbn [trace workspaceState extend app fst snd];
  rewrite <- ?app_assoc;
  cbn [app].

(** Runs the next [runCommand] of the goal, in an open folder: names the
    result of its process, whatever the history it answers from, and splits
    on its exit status. *)
Ltac run_open Hopen :=
  match goal with
  | |- context [runCommand ?v ?c ?t ?s] =>
      rewrite (runCommand_open v _ c t s Hopen);
      cbv zeta;
      match goal with
      | |- context [process v ?history c ?cwd] =>
          let r := fresh "r" in
          let Hexit := fresh "Hexit" in
          generalize (process v history c cwd); intro r;
          destruct (exit_status r =? 0)%Z eqn:Hexit;
          [apply Z.eqb_eq in Hexit | apply Z.eqb_neq in Hexit];
          cbn beta iota;
          rewrite ?log_as_extend, ?extend_extend;
          cbn [app]
      end
  end.

Ltac run_closed Hclosed :=
  match goal with
  | |- context [runCommand ?v ?c ?t ?s] =>
      rewrite (runCommand_closed v c t s Hclosed);
      cbn beta iota;
      rewrite ?log_as_extend, ?extend_extend;
      cbn [app]
  end.

Section Handlers.

Context (vscode : Env).

(** Student setup with no name typed: the input box and nothing else. *)
Lemma studentSetup_cancelled st :
  let answer :=
    inputBoxAnswer vscode (trace st) "Enter the name of the professor's repository" in
  answer = None \/ answer = Some EmptyString ->
  studentSetup vscode st
  = (Resolved tt,
     extend [EvInputBox "Enter the name of the professor's repository" None answer] st).
Proof.
  intros answer Hanswer.
  unfold studentSetup. unfold_async. fold answer.
  by destruct Hanswer as [-> | ->].
Qed.

(** C10. When the repository-name input box of the student setup command is
    cancelled or returns the empty string, the command resolves having only
    shown the input box: no shell command, no workspace-state update, no
    information or error notification. *)
Theorem studentSetup_returns_without_name st :
  let answer :=
    inputBoxAnswer vscode (trace st) "Enter the name of the professor's repository" in
  answer = None \/ answer = Some EmptyString ->
  studentSetup vscode st
  = (Resolved tt,
     log (EvInputBox "Enter the name of the professor's repository" None answer) st)
  /\ commands (emitted (studentSetup vscode) st) = []
  /\ workspaceState (snd (studentSetup vscode st)) = workspaceState st
  /\ information_messages (emitted (studentSetup vscode) st) = []
  /\ error_messages (emitted (studentSetup vscode) st) = [].
Proof.
  intros answer Hanswer.
  pose proof (studentSetup_cancelled st Hanswer) as Hrun. fold answer in Hrun.
  destruct (emitted_eq _ _ _ _ Hrun) as [Hevs Hws].
  rewrite Hevs, Hws. by rewrite Hrun.
Qed.

(** C3. When the porcelain status query of the professor sync command
    resolves with output that is empty after trimming, the command reports
    that there is nothing to send and stops: the status query is the only
    shell command it has run (no add, no commit, no push), and no error is
    shown. *)
Theorem professorSync_clean_tree st status st1 :
  runCommand vscode "git status --porcelain" "Checking for changes..." st
  = (Resolved status, st1) ->
  trim status = EmptyString ->
  professorSync vscode st
  = (Resolved tt, log (EvInformationMessage "No new changes to send.") st1)
  /\ commands (emitted (professorSync vscode) st) = ["git status --porcelain"]
  /\ information_messages (emitted (professorSync vscode) st)
     = ["No new changes to send."]
  /\ error_messages (emitted (professorSync vscode) st) = [].
Proof.
  intros Hstatus Hclean.
  assert (Hrun : professorSync vscode st
    = (Resolved tt, log (EvInformationMessage "No new changes to send.") st1)).
  { unfold professorSync. unfold_async. rewrite Hstatus. cbn beta iota.
    by rewrite Hclean. }
  split; [exact Hrun|].
  destruct (runCommand_resolved _ _ _ _ _ _ Hstatus) as (cwd & _ & _ & _ & ->).
  rewrite log_extend in Hrun. cbn [app] in Hrun.
  by destruct (emitted_eq _ _ _ _ Hrun) as [-> _].
Qed.

(** C1. The student resync command runs a shell command only when the user
    picked the exact confirmation item of the modal warning.  With any other
    outcome of the dialog (dismissed, or another answer) it resolves having
    done nothing but show the dialog.  With the confirmation, in an open
    folder, it runs fetch, the branch query, the hard reset to
    [origin/<branch>] and the clean, in that order, each after the previous
    one exited with status zero; with no folder open it runs nothing. *)
Theorem studentResync_only_after_confirmation st :
  let question :=
    "This will discard ALL your local changes and download the professor's latest version. Are you sure?" in
  let answer := warningAnswer vscode (trace st) question ["Yes, reset my work"] in
  let ran := executions (emitted (studentResync vscode) st) in
  (answer <> Some "Yes, reset my work" ->
   studentResync vscode st
   = (Resolved tt, log (EvWarningMessage question true ["Yes, reset my work"] answer) st)
   /\ ran = [])
  /\ (ran <> [] -> answer = Some "Yes, reset my work")
  /\ (answer = Some "Yes, reset my work" ->
      (open_folder vscode = None -> ran = [])
      /\ (forall cwd, open_folder vscode = Some cwd ->
          exists fetched branch reset cleaned,
            let fetch_step := ("git fetch origin", fetched) in
            let branch_step := ("git branch --show-current", branch) in
            let reset_step :=
              ("git reset --hard origin/" +:+ trim (captured_stdout branch), reset) in
            let clean_step := ("git clean -fd", cleaned) in
            (ran = [fetch_step] /\ exit_status fetched <> 0%Z)
            \/ (ran = [fetch_step; branch_step]
                /\ exit_status fetched = 0%Z /\ exit_status branch <> 0%Z)
            \/ (ran = [fetch_step; branch_step; reset_step]
                /\ exit_status fetched = 0%Z /\ exit_status branch = 0%Z
                /\ exit_status reset <> 0%Z)
            \/ (ran = [fetch_step; branch_step; reset_step; clean_step]
                /\ exit_status fetched = 0%Z /\ exit_status branch = 0%Z
                /\ exit_status reset = 0%Z))).
Proof.
  intros question answer ran.
  assert (Hother : answer <> Some "Yes, reset my work" ->
    studentResync vscode st
    = (Resolved tt, log (EvWarningMessage question true ["Yes, reset my work"] answer) st)
    /\ ran = []).
  { intros Hanswer.
    assert (Hrun : studentResync vscode st
      = (Resolved tt,
         extend [EvWarningMessage question true ["Yes, reset my work"] answer] st)).
    { unfold studentResync. unfold_async. fold question. fold answer.
      destruct answer as [picked|]; cbn [strict_equal]; [|done].
      destruct (String.eqb_spec picked "Yes, reset my work") as [->|]; [|done].
      by destruct Hanswer. }
    split; [exact Hrun|]. subst ran.
    by destruct (emitted_eq _ _ _ _ Hrun) as [-> _]. }
  split; [exact Hother|]. split.
  { intros Hran. destruct (decide (answer = Some "Yes, reset my work")) as [|Hne]; [done|].
    destruct (Hother Hne) as [_ Hnil]. by destruct Hran. }
  intros Hanswer. subst ran. unfold emitted.
  unfold studentResync. unfold_async. fold question. fold answer.
  rewrite Hanswer. cbn [strict_equal String.eqb Ascii.eqb Bool.eqb]. cbn beta iota.
  split.
  { intros Hclosed. run_closed Hclosed. tidy. by rewrite drop_app_length. }
  intros cwd Hopen. cbv zeta.
  run_open Hopen;
    [|tidy; rewrite drop_app_length; cbn [executions]; exists r, r, r, r; by left].
  run_open Hopen;
    [|tidy; rewrite drop_app_length; cbn [executions]; exists r, r0, r0, r0;
      right; by left].
  run_open Hopen;
    [|tidy; rewrite drop_app_length; cbn [executions]; exists r, r0, r1, r1;
      right; right; by left].
  run_open Hopen; tidy; rewrite drop_app_length; cbn [executions];
    exists r, r0, r1, r2; right; right; by right.
Qed.

(** C7 (as amended). When the porcelain status query of the professor sync
    command resolves with output that is not empty after trimming, the
    command runs, after the query and in this order, [git add .], the commit
    with the fixed message [Update from professor] and [git push], each one
    only after the previous one exited with status zero: the sequence stops
    at the first command that fails, and it is complete when add and commit
    succeed. *)
Theorem professorSync_add_commit_push st status st1 :
  runCommand vscode "git status --porcelain" "Checking for changes..." st
  = (Resolved status, st1) ->
  trim status <> EmptyString ->
  let ran := executions (emitted (professorSync vscode) st) in
  exists queried added committed pushed,
    let query_step := ("git status --porcelain", queried) in
    let add_step := ("git add .", added) in
    let commit_step :=
      ("git commit -m " +:+ dquote +:+ "Update from professor" +:+ dquote, committed) in
    let push_step := ("git push", pushed) in
    exit_status queried = 0%Z /\ captured_stdout queried = status
    /\ ((ran = [query_step; add_step] /\ exit_status added <> 0%Z)
        \/ (ran = [query_step; add_step; commit_step]
            /\ exit_status added = 0%Z /\ exit_status committed <> 0%Z)
        \/ (ran = [query_step; add_step; commit_step; push_step]
            /\ exit_status added = 0%Z /\ exit_status committed = 0%Z)).
Proof.
  intros Hstatus Hdirty ran. subst ran.
  destruct (runCommand_resolved _ _ _ _ _ _ Hstatus) as (cwd & Hopen & Hzero & -> & ->).
  apply Z.eqb_eq in Hzero. revert Hzero Hdirty Hstatus.
  generalize (process vscode (trace st ++ [EvProgress "Checking for changes..." false])
                "git status --porcelain" cwd).
  intros queried Hzero Hdirty Hstatus.
  unfold emitted, professorSync. unfold_async. rewrite Hstatus. cbn beta iota.
  destruct (String.eqb_spec (trim (captured_stdout queried)) EmptyString) as [Hclean|_];
    [by destruct Hdirty|].
  cbv zeta.
  run_open Hopen;
    [|tidy; rewrite drop_app_length; cbn [executions]; exists queried, r, r, r;
      (split; [done|]); (split; [done|]); by left].
  run_open Hopen;
    [|tidy; rewrite drop_app_length; cbn [executions]; exists queried, r, r0, r0;
      (split; [done|]); (split; [done|]); right; by left].
  run_open Hopen; tidy; rewrite drop_app_length; cbn [executions];
    exists queried, r, r0, r1; (split; [done|]); (split; [done|]); right; by right.
Qed.

Lemma after_each_exec_split P evs :
  after_each_exec P evs ->
  forall pre command cwd r post,
    evs = pre ++ EvExec command cwd r :: post -> P command cwd r post.
Proof.
  intros Hall pre. revert evs Hall.
  induction pre as [|ev pre IH]; intros evs Hall command cwd r post ->.
  - cbn in Hall. tauto.
  - cbn [app] in Hall. apply (IH (pre ++ EvExec command cwd r :: post)); [|reflexivity].
    destruct ev; cbn in Hall; tauto.
Qed.

Lemma stops_at_failure_intro tolerated prefix evs :
  after_each_exec
    (fun command _ r post =>
       exit_status r <> 0%Z -> tolerated command = false ->
       post = failure_report prefix command r) evs ->
  stops_at_failure tolerated prefix evs.
Proof.
  intros Hall pre command cwd r post Hsplit.
  exact (after_each_exec_split _ _ Hall _ _ _ _ _ Hsplit).
Qed.

(** Closes one run of a handler in a goal [stops_at_failure _ _ evs]. *)
Ltac close_stops :=
  tidy; rewrite ?drop_app_length;
  apply stops_at_failure_intro; cbn [after_each_exec];
  repeat split; intros Hfailed Htolerated;
  first [ by destruct Hfailed | discriminate Htolerated | reflexivity ].

Lemma professorSetup_stops st :
  stops_at_failure (String.eqb "git remote remove origin") "An error occurred: "
    (emitted (professorSetup vscode) st).
Proof.
  unfold emitted, professorSetup. unfold_async.
  destruct (inputBoxAnswer vscode (trace st) "Enter the repository name")
    as [repoName|]; [destruct (truthy repoName)|]; cbn beta iota;
    [|close_stops..].
  destruct (open_folder vscode) as [cwd|] eqn:Hopen;
    [repeat run_open Hopen | repeat run_closed Hopen]; close_stops.
Qed.

Lemma professorSync_stops st :
  stops_at_failure (fun _ => false) "Failed to push update: "
    (emitted (professorSync vscode) st).
Proof.
  unfold emitted, professorSync. unfold_async.
  destruct (open_folder vscode) as [cwd|] eqn:Hopen.
  - run_open Hopen; [|close_stops].
    destruct (String.eqb _ EmptyString); [close_stops|].
    repeat run_open Hopen; close_stops.
  - repeat run_closed Hopen. close_stops.
Qed.

Lemma studentSetup_stops st :
  stops_at_failure (fun _ => false) "Failed to clone repository: "
    (emitted (studentSetup vscode) st).
Proof.
  unfold emitted, studentSetup. unfold_async.
  destruct (inputBoxAnswer vscode (trace st) "Enter the name of the professor's repository")
    as [repoName|]; [destruct (truthy repoName)|]; cbn beta iota;
    [|close_stops..].
  destruct (open_folder vscode) as [cwd|] eqn:Hopen;
    [repeat run_open Hopen | repeat run_closed Hopen]; close_stops.
Qed.

Lemma studentResync_stops st :
  stops_at_failure (fun _ => false) "Failed to sync: "
    (emitted (studentResync vscode) st).
Proof.
  unfold emitted, studentResync. unfold_async.
  destruct (strict_equal _ "Yes, reset my work"); cbn beta iota; [|close_stops].
  destruct (open_folder vscode) as [cwd|] eqn:Hopen;
    [repeat run_open Hopen | repeat run_closed Hopen]; close_stops.
Qed.

(** The workflows when the runner finds no folder. *)
Lemma professorSetup_no_folder st repoName :
  open_folder vscode = None ->
  inputBoxAnswer vscode (trace st) "Enter the repository name" = Some repoName ->
  repoName <> EmptyString ->
  emitted (professorSetup vscode) st
  = EvInputBox "Enter the repository name"
      (Some "e.g., class-repo (must be created and empty on GitHub first)")
      (Some repoName)
    :: no_folder_report "An error occurred: ".
Proof.
  intros Hclosed Hanswer Hname.
  unfold emitted, professorSetup. unfold_async. rewrite Hanswer.
  destruct repoName; [done|]. cbn [truthy]. cbn beta iota.
  run_closed Hclosed. tidy. by rewrite drop_app_length.
Qed.

Lemma professorSync_no_folder st :
  open_folder vscode = None ->
  emitted (professorSync vscode) st = no_folder_report "Failed to push update: ".
Proof.
  intros Hclosed.
  unfold emitted, professorSync. unfold_async.
  run_closed Hclosed. tidy. by rewrite drop_app_length.
Qed.

Lemma studentSetup_no_folder st repoName :
  open_folder vscode = None ->
  inputBoxAnswer vscode (trace st) "Enter the name of the professor's repository"
  = Some repoName ->
  repoName <> EmptyString ->
  emitted (studentSetup vscode) st
  = EvInputBox "Enter the name of the professor's repository" None (Some repoName)
    :: no_folder_report "Failed to clone repository: ".
Proof.
  intros Hclosed Hanswer Hname.
  unfold emitted, studentSetup. unfold_async. rewrite Hanswer.
  destruct repoName; [done|]. cbn [truthy]. cbn beta iota.
  run_closed Hclosed. tidy. by rewrite drop_app_length.
Qed.

Lemma studentResync_no_folder st :
  let question :=
    "This will discard ALL your local changes and download the professor's latest version. Are you sure?" in
  open_folder vscode = None ->
  warningAnswer vscode (trace st) question ["Yes, reset my work"]
  = Some "Yes, reset my work" ->
  emitted (studentResync vscode) st
  = EvWarningMessage question true ["Yes, reset my work"] (Some "Yes, reset my work")
    :: no_folder_report "Failed to sync: ".
Proof.
  intros question Hclosed Hanswer.
  unfold emitted, studentResync. unfold_async. fold question. rewrite Hanswer.
  cbn [strict_equal String.eqb Ascii.eqb Bool.eqb]. cbn beta iota.
  run_closed Hclosed. tidy. by rewrite drop_app_length.
Qed.

(** C4 (as amended). In each of the four workflows, when the process of a
    step exits with a status other than zero (so that the runner's promise
    rejects), the events that follow are the console line of the runner and
    one error notification carrying the error, and nothing else: no later
    step runs, nothing is undone and nothing is tried again.  The one
    exception is the step [git remote remove origin] of professor setup.
    When the runner rejects because no folder is open, which it does at the
    first step, the workflow shows the error notification after its dialog
    and runs no command at all. *)
Theorem handlers_stop_at_first_rejection st :
  (stops_at_failure (String.eqb "git remote remove origin") "An error occurred: "
     (emitted (professorSetup vscode) st)
   /\ stops_at_failure (fun _ => false) "Failed to push update: "
        (emitted (professorSync vscode) st)
   /\ stops_at_failure (fun _ => false) "Failed to clone repository: "
        (emitted (studentSetup vscode) st)
   /\ stops_at_failure (fun _ => false) "Failed to sync: "
        (emitted (studentResync vscode) st))
  /\ (open_folder vscode = None ->
      (forall repoName,
         inputBoxAnswer vscode (trace st) "Enter the repository name" = Some repoName ->
         repoName <> EmptyString ->
         emitted (professorSetup vscode) st
         = EvInputBox "Enter the repository name"
             (Some "e.g., class-repo (must be created and empty on GitHub first)")
             (Some repoName)
           :: no_folder_report "An error occurred: ")
      /\ emitted (professorSync vscode) st = no_folder_report "Failed to push update: "
      /\ (forall repoName,
            inputBoxAnswer vscode (trace st)
              "Enter the name of the professor's repository" = Some repoName ->
            repoName <> EmptyString ->
            emitted (studentSetup vscode) st
            = EvInputBox "Enter the name of the professor's repository" None
                (Some repoName)
              :: no_folder_report "Failed to clone repository: ")
      /\ (warningAnswer vscode (trace st)
            "This will discard ALL your local changes and download the professor's latest version. Are you sure?"
            ["Yes, reset my work"]
          = Some "Yes, reset my work" ->
          emitted (studentResync vscode) st
          = EvWarningMessage
              "This will discard ALL your local changes and download the professor's latest version. Are you sure?"
              true ["Yes, reset my work"] (Some "Yes, reset my work")
            :: no_folder_report "Failed to sync: ")).
Proof.
  split.
  - split; [apply professorSetup_stops|].
    split; [apply professorSync_stops|].
    split; [apply studentSetup_stops|apply studentResync_stops].
  - intros Hclosed.
    split; [intros repoName; by apply professorSetup_no_folder|].
    split; [by apply professorSync_no_folder|].
    split; [intros repoName; by apply studentSetup_no_folder|].
    by apply studentResync_no_folder.
Qed.

(** Closes the cases of a run in which every later process is assumed to
    exit with status zero, and one did not. *)
Ltac some_failed Hfirst Hall :=
  exfalso;
  cbn [executions] in Hall;
  match goal with
  | Hne : exit_status ?r <> 0%Z |- _ => apply Hne; exact Hfirst
  | Hne : exit_status ?r <> 0%Z |- _ =>
      match type of Hall with
      | context [(?command, r)] =>
          apply Hne; apply (Hall command r); cbn [In]; solve [eauto 10]
      end
  end.

(** C6. In professor setup, when the step [git remote remove origin] exits
    with a status other than zero, the failure is swallowed: what follows is
    the console line of the runner and the console line of the inner [catch]
    block, no error notification, and then the next step,
    [git remote add origin <url>], is executed.  The sequence goes on from
    there as usual: when the remaining processes exit with status zero, add,
    commit, the branch query and push are all run and the success
    notification is shown. *)
Theorem professorSetup_swallows_remove_failure st pre cwd r post :
  emitted (professorSetup vscode) st
  = pre ++ EvExec "git remote remove origin" cwd r :: post ->
  exit_status r <> 0%Z ->
  exists repoName added rest,
    inputBoxAnswer vscode (trace st) "Enter the repository name" = Some repoName
    /\ post
       = [EvConsoleError "Execution error object:"
            (exec_error "git remote remove origin" r);
          EvConsoleLog "No old 'origin' remote to remove, which is normal.";
          EvProgress "Connecting to the remote repository..." false;
          EvExec ("git remote add origin https://github.com/afmiguel/" +:+ repoName
                    +:+ ".git") cwd added]
         ++ rest
    /\ (exit_status added = 0%Z ->
        (forall command r', In (command, r') (executions rest) -> exit_status r' = 0%Z) ->
        exists branchName,
          commands rest
          = ["git add .";
             "git commit --allow-empty -m " +:+ dquote +:+ "Initial commit from Class Sync"
               +:+ dquote;
             "git branch --show-current";
             "git push -u origin " +:+ branchName]
          /\ information_messages rest
             = ["Repository configured and pushed successfully!"]
          /\ error_messages rest = []).
Proof.
  intros Hsplit.
  pose (P := fun (command cwd : string) (r : ProcessResult) (post : list Event) =>
    command = "git remote remove origin" ->
    exit_status r <> 0%Z ->
    exists repoName added rest,
      inputBoxAnswer vscode (trace st) "Enter the repository name" = Some repoName
      /\ post
         = [EvConsoleError "Execution error object:"
              (exec_error "git remote remove origin" r);
            EvConsoleLog "No old 'origin' remote to remove, which is normal.";
            EvProgress "Connecting to the remote repository..." false;
            EvExec ("git remote add origin https://github.com/afmiguel/" +:+ repoName
                      +:+ ".git") cwd added]
           ++ rest
      /\ (exit_status added = 0%Z ->
          (forall command r', In (command, r') (executions rest) -> exit_status r' = 0%Z) ->
          exists branchName,
            commands rest
            = ["git add .";
               "git commit --allow-empty -m " +:+ dquote
                 +:+ "Initial commit from Class Sync" +:+ dquote;
               "git branch --show-current";
               "git push -u origin " +:+ branchName]
            /\ information_messages rest
               = ["Repository configured and pushed successfully!"]
            /\ error_messages rest = [])).
  cut (after_each_exec P (emitted (professorSetup vscode) st)).
  { intros Hall. exact (after_each_exec_split P _ Hall _ _ _ _ _ Hsplit eq_refl). }
  clear Hsplit. unfold emitted, professorSetup. unfold_async.
  destruct (inputBoxAnswer vscode (trace st) "Enter the repository name")
    as [repoName|] eqn:Hanswer; [destruct (truthy repoName)|]; cbn beta iota;
    [|tidy; rewrite drop_app_length; exact I..].
  destruct (open_folder vscode) as [folder|] eqn:Hopen;
    [repeat run_open Hopen | repeat run_closed Hopen];
    tidy; rewrite drop_app_length; cbn [after_each_exec]; subst P; cbn beta;
    repeat split;
    try (intros Hcommand; cbn in Hcommand; discriminate Hcommand);
    intros _ Hfailed; try (by destruct Hfailed);
    (eexists repoName, _, _; split; [reflexivity|]; split; [reflexivity|]);
    intros Hadded Hall; try some_failed Hadded Hall;
    eexists; cbn [commands information_messages error_messages]; done.
Qed.

Lemma each_split_cut {A} (P : list A -> A -> list A -> Prop) evs :
  each_split P [] evs ->
  forall pre ev post, evs = pre ++ ev :: post -> P pre ev post.
Proof.
  assert (Hgen : forall pre done ev post,
             each_split P done (pre ++ ev :: post) -> P (done ++ pre) ev post).
  { induction pre as [|x pre IH]; intros done ev post Hall; cbn in Hall.
    - rewrite app_nil_r. tauto.
    - destruct Hall as [_ Hall]. apply IH in Hall.
      by rewrite <- app_assoc in Hall. }
  intros Hall pre ev post ->. exact (Hgen pre [] ev post Hall).
Qed.

(** C8. When the input box of professor setup or of student setup returns a
    non-empty repository name, the commands the handler runs are an initial
    part of its fixed sequence, in which the remote is named once, by
    [https://github.com/afmiguel/<name>.git]: in [git remote add origin] for
    the professor, in [git clone] for the student, who records the same
    string, and nothing else, in the workspace state.  The command that
    names the remote is run: by student setup in any open folder, by
    professor setup in any open folder once the two [git config] commands
    and [git init] have exited with status zero. *)
Theorem setup_commands_use_repository_url st repoName :
  repoName <> EmptyString ->
  let url := "https://github.com/afmiguel/" +:+ repoName +:+ ".git" in
  (inputBoxAnswer vscode (trace st) "Enter the repository name" = Some repoName ->
   (exists branchName,
      commands (emitted (professorSetup vscode) st)
      `prefix_of`
      ["git config --global user.name " +:+ dquote +:+ "Afonso Miguel" +:+ dquote;
       "git config --global user.email " +:+ dquote +:+ "afonso.miguel@pucpr.br" +:+ dquote;
       "git init";
       "git remote remove origin";
       "git remote add origin " +:+ url;
       "git add .";
       "git commit --allow-empty -m " +:+ dquote +:+ "Initial commit from Class Sync"
         +:+ dquote;
       "git branch --show-current";
       "git push -u origin " +:+ branchName])
   /\ (forall cwd,
         open_folder vscode = Some cwd ->
         (forall command r,
            In (command, r) (take 3 (executions (emitted (professorSetup vscode) st))) ->
            exit_status r = 0%Z) ->
         exists rest,
           commands (emitted (professorSetup vscode) st)
           = ["git config --global user.name " +:+ dquote +:+ "Afonso Miguel" +:+ dquote;
              "git config --global user.email " +:+ dquote +:+ "afonso.miguel@pucpr.br"
                +:+ dquote;
              "git init";
              "git remote remove origin";
              "git remote add origin " +:+ url]
             ++ rest))
  /\ (inputBoxAnswer vscode (trace st) "Enter the name of the professor's repository"
      = Some repoName ->
      commands (emitted (studentSetup vscode) st) `prefix_of` ["git clone " +:+ url +:+ " ."]
      /\ state_updates (emitted (studentSetup vscode) st) `prefix_of` [("repoUrl", url)]
      /\ (forall cwd, open_folder vscode = Some cwd ->
          commands (emitted (studentSetup vscode) st) = ["git clone " +:+ url +:+ " ."])).
Proof.
  intros Hname url. split; intros Hanswer; [split|].
  - unfold emitted, professorSetup. unfold_async. rewrite Hanswer.
    destruct repoName; [done|]. cbn [truthy]. cbn beta iota.
    destruct (open_folder vscode) as [folder|] eqn:Hopen;
      [repeat run_open Hopen | repeat run_closed Hopen];
      tidy; rewrite drop_app_length; cbn [commands]; unfold prefix;
      first [ by (exists EmptyString; eexists; cbn [app]; reflexivity)
            | by (eexists; eexists; cbn [app]; reflexivity) ].
  - unfold emitted, professorSetup. unfold_async. rewrite Hanswer.
    destruct repoName; [done|]. cbn [truthy]. cbn beta iota.
    destruct (open_folder vscode) as [folder|] eqn:Hopen;
      [repeat run_open Hopen | repeat run_closed Hopen];
      tidy; rewrite ?drop_app_length; cbn [executions firstn commands];
      intros cwd Hcwd Hall; try discriminate Hcwd;
      first
        [ match goal with
          | Hne : exit_status ?r <> 0%Z |- _ =>
              match type of Hall with
              | context [(?command, r)] =>
                  exfalso; apply Hne; apply (Hall command r); cbn [In]; solve [eauto 10]
              end
          end
        | by eexists ].
  - unfold emitted, studentSetup. unfold_async. rewrite Hanswer.
    destruct repoName; [done|]. cbn [truthy]. cbn beta iota.
    destruct (open_folder vscode) as [folder|] eqn:Hopen;
      [repeat run_open Hopen | repeat run_closed Hopen];
      tidy; rewrite drop_app_length; cbn [commands state_updates]; unfold prefix;
      (split; [by eexists|]); (split; [by eexists|]); by intros cwd.
Qed.

(** C9. In student setup the workspace-state entry [repoUrl] is written only
    after the clone command has succeeded: an update in the trace comes right
    after the console line of a clone that exited with status zero, and it is
    the only update.  When the input box is cancelled (or returns the empty
    string), and when the clone promise rejects, no update is made and the
    store is left as it was. *)
Theorem studentSetup_updates_state_after_clone st :
  let prompt := "Enter the name of the professor's repository" in
  let title := "Cloning the professor's project..." in
  let answer := inputBoxAnswer vscode (trace st) prompt in
  let evs := emitted (studentSetup vscode) st in
  let final := snd (studentSetup vscode st) in
  (forall pre key value post,
     evs = pre ++ EvStateUpdate key value :: post ->
     exists repoName cwd cloned,
       answer = Some repoName
       /\ key = "repoUrl" /\ value = repoUrl repoName
       /\ pre = [EvInputBox prompt None (Some repoName);
                 EvProgress title false;
                 EvExec ("git clone " +:+ repoUrl repoName +:+ " .") cwd cloned;
                 EvConsoleLog ("Command output: " +:+ captured_stdout cloned)]
       /\ exit_status cloned = 0%Z
       /\ state_updates post = []
       /\ workspaceState final = <["repoUrl" := repoUrl repoName]> (workspaceState st))
  /\ (answer = None \/ answer = Some EmptyString ->
      state_updates evs = [] /\ workspaceState final = workspaceState st)
  /\ (forall repoName error st1,
        answer = Some repoName ->
        runCommand vscode ("git clone " +:+ repoUrl repoName +:+ " .") title
          (log (EvInputBox prompt None (Some repoName)) st)
        = (Rejected error, st1) ->
        state_updates evs = [] /\ workspaceState final = workspaceState st)
  /\ (forall repoName output st1,
        answer = Some repoName ->
        repoName <> EmptyString ->
        runCommand vscode ("git clone " +:+ repoUrl repoName +:+ " .") title
          (log (EvInputBox prompt None (Some repoName)) st)
        = (Resolved output, st1) ->
        state_updates evs = [("repoUrl", repoUrl repoName)]
        /\ workspaceState final = <["repoUrl" := repoUrl repoName]> (workspaceState st)).
Proof.
  intros prompt title answer evs final. subst evs final.
  split; [|split; [|split]].
  - intros pre key value post Hcut.
    refine (each_split_cut
      (fun pre ev post => forall key value, ev = EvStateUpdate key value ->
         exists repoName cwd cloned,
           answer = Some repoName
           /\ key = "repoUrl" /\ value = repoUrl repoName
           /\ pre = [EvInputBox prompt None (Some repoName);
                     EvProgress title false;
                     EvExec ("git clone " +:+ repoUrl repoName +:+ " .") cwd cloned;
                     EvConsoleLog ("Command output: " +:+ captured_stdout cloned)]
           /\ exit_status cloned = 0%Z
           /\ state_updates post = []
           /\ workspaceState (snd (studentSetup vscode st))
              = <["repoUrl" := repoUrl repoName]> (workspaceState st))
      _ _ pre (EvStateUpdate key value) post Hcut key value eq_refl).
    clear. unfold emitted, studentSetup. unfold_async.
    fold prompt. fold answer. fold title.
    destruct answer as [repoName|] eqn:Hanswer; [destruct (truthy repoName)|];
      cbn beta iota;
      [|tidy; rewrite drop_app_length; cbn [each_split]; repeat split;
        intros key value Hev; discriminate Hev..].
    destruct (open_folder vscode) as [folder|] eqn:Hopen;
      [repeat run_open Hopen | repeat run_closed Hopen];
      tidy; rewrite drop_app_length; cbn [each_split app]; repeat split;
      intros key value Hev; try discriminate Hev.
    injection Hev as <- <-. by exists repoName, folder, r.
  - intros Hcancelled.
    pose proof (studentSetup_cancelled st Hcancelled) as Hrun.
    by destruct (emitted_eq _ _ _ _ Hrun) as [-> ->].
  - intros repoName error st1 Hanswer Hclone.
    assert (Hrun : exists shown, studentSetup vscode st
      = (Resolved tt,
         extend (EvInputBox prompt None (Some repoName) :: shown) st)
      /\ state_updates shown = []).
    { unfold studentSetup. unfold_async. fold prompt. fold answer. rewrite Hanswer.
      destruct (truthy repoName); cbn beta iota;
        [|by exists []].
      fold title. rewrite log_as_extend in Hclone. rewrite Hclone. cbn beta iota.
      destruct (runCommand_rejected _ _ _ _ _ _ Hclone)
        as [(_ & _ & ->) | (cwd & _ & _ & _ & ->)];
        rewrite ?log_as_extend, ?extend_extend; cbn [app]; eexists; by split. }
    destruct Hrun as (shown & Hrun & Hnone).
    destruct (emitted_eq _ _ _ _ Hrun) as [-> ->]. by cbn [state_updates].
  - intros repoName output st1 Hanswer Hname Hclone.
    unfold emitted, studentSetup. unfold_async. fold prompt. fold answer. rewrite Hanswer.
    destruct repoName; [done|]. cbn [truthy]. cbn beta iota.
    fold title. rewrite log_as_extend in Hclone. rewrite Hclone. cbn beta iota.
    destruct (runCommand_resolved _ _ _ _ _ _ Hclone) as (cwd & _ & _ & _ & ->).
    tidy. by rewrite drop_app_length.
Qed.

End Handlers.

(** C4, as stated, fails.  When the folder has no [origin] remote, the step
    [git remote remove origin] of professor setup exits with a status other
    than zero; no error notification follows, and five more commands
    run. *)
Lemma professorSetup_continues_after_rejection :
  ~ fails_fast (emitted (professorSetup no_origin_yet) fresh_state).
Proof.
  intros Hclaim.
  destruct (Hclaim
    (firstn 12 (emitted (professorSetup no_origin_yet) fresh_state))
    "git remote remove origin" "/home/user/class"
    (exits_with 2 "error: No such remote: 'origin'")
    (skipn 13 (emitted (professorSetup no_origin_yet) fresh_state)))
    as [Hshown _].
  - vm_compute. reflexivity.
  - discriminate.
  - apply Hshown. vm_compute. reflexivity.
Qed.

(** C7, as stated, fails.  When the commit is refused, the professor sync
    command has run the status query, add and commit, and it does not push. *)
Lemma professorSync_stops_when_commit_fails :
  ~ always_add_commit_push commit_refused fresh_state.
Proof.
  intros Hclaim.
  specialize (Hclaim (" M notes.txt" +:+ newline)
    (snd (runCommand commit_refused "git status --porcelain" "Checking for changes..."
            fresh_state))).
  assert (Hran : commands (emitted (professorSync commit_refused) fresh_state)
                 = ["git status --porcelain"; "git add .";
                    "git commit -m " +:+ dquote +:+ "Update from professor" +:+ dquote])
    by (vm_compute; reflexivity).
  rewrite Hran in Hclaim.
  discriminate Hclaim; [vm_compute; reflexivity | vm_compute; discriminate].
Qed.

(** * The handlers on the scenarios *)

Lemma runCommand_rejects_without_folder_witness :
  (workspaceFolders nothing_open = None \/ workspaceFolders nothing_open = Some [])
  /\ runCommand nothing_open "git status --porcelain" "Checking for changes..." fresh_state
     = (Rejected (ErrString "Please open a project folder first."), fresh_state).
Proof.
  split; [left; reflexivity|].
  apply (runCommand_rejects_without_folder nothing_open
           "git status --porcelain" "Checking for changes..." fresh_state).
  left; reflexivity.
Defined.

Lemma studentSetup_returns_without_name_witness :
  inputBoxAnswer professor_at_work (trace fresh_state)
    "Enter the name of the professor's repository" = None
  /\ commands (emitted (studentSetup professor_at_work) fresh_state) = [].
Proof.
  split; [reflexivity|].
  pose proof (studentSetup_returns_without_name professor_at_work fresh_state) as Hreturns.
  cbv zeta in Hreturns.
  destruct Hreturns as (_ & Hnone & _); [left; reflexivity|].
  exact Hnone.
Defined.

Lemma professorSync_clean_tree_witness :
  trim EmptyString = EmptyString
  /\ commands (emitted (professorSync professor_idle) fresh_state)
     = ["git status --porcelain"].
Proof.
  split; [reflexivity|].
  pose proof (professorSync_clean_tree professor_idle fresh_state EmptyString
    (snd (runCommand professor_idle "git status --porcelain" "Checking for changes..."
            fresh_state))) as Hclean.
  destruct Hclean as (_ & Honly & _); [reflexivity | reflexivity | exact Honly].
Defined.

Lemma professorSync_add_commit_push_witness :
  trim (" M notes.txt" +:+ newline) <> EmptyString
  /\ exists queried,
       exit_status queried = 0%Z
       /\ captured_stdout queried = " M notes.txt" +:+ newline.
Proof.
  assert (Hdirty : trim (" M notes.txt" +:+ newline) <> EmptyString)
    by (vm_compute; discriminate).
  split; [exact Hdirty|].
  pose proof (professorSync_add_commit_push professor_at_work fresh_state
    (" M notes.txt" +:+ newline)
    (snd (runCommand professor_at_work "git status --porcelain" "Checking for changes..."
            fresh_state)) eq_refl Hdirty) as Hrun.
  cbv zeta in Hrun.
  destruct Hrun as (queried & _ & _ & _ & Hzero & Houtput & _).
  exists queried. split; [exact Hzero | exact Houtput].
Defined.

Lemma professorSetup_swallows_remove_failure_witness :
  exit_status (exits_with 2 "error: No such remote: 'origin'") <> 0%Z
  /\ exists repoName added rest,
       skipn 13 (emitted (professorSetup no_origin_yet) fresh_state)
       = [EvConsoleError "Execution error object:"
            (exec_error "git remote remove origin"
               (exits_with 2 "error: No such remote: 'origin'"));
          EvConsoleLog "No old 'origin' remote to remove, which is normal.";
          EvProgress "Connecting to the remote repository..." false;
          EvExec ("git remote add origin https://github.com/afmiguel/" +:+ repoName
                    +:+ ".git") "/home/user/class" added]
         ++ rest.
Proof.
  assert (Hfailed : exit_status (exits_with 2 "error: No such remote: 'origin'") <> 0%Z)
    by discriminate.
  split; [exact Hfailed|].
  assert (Hcut : emitted (professorSetup no_origin_yet) fresh_state
    = firstn 12 (emitted (professorSetup no_origin_yet) fresh_state)
      ++ EvExec "git remote remove origin" "/home/user/class"
           (exits_with 2 "error: No such remote: 'origin'")
      :: skipn 13 (emitted (professorSetup no_origin_yet) fresh_state))
    by (vm_compute; reflexivity).
  destruct (professorSetup_swallows_remove_failure no_origin_yet fresh_state _ _ _ _
              Hcut Hfailed) as (repoName & added & rest & _ & Hpost & _).
  exists repoName, added, rest. exact Hpost.
Defined.

Lemma setup_commands_use_repository_url_witness :
  "class-repo" <> EmptyString
  /\ (exists rest,
        commands (emitted (professorSetup no_origin_yet) fresh_state)
        = ["git config --global user.name " +:+ dquote +:+ "Afonso Miguel" +:+ dquote;
           "git config --global user.email " +:+ dquote +:+ "afonso.miguel@pucpr.br"
             +:+ dquote;
           "git init";
           "git remote remove origin";
           "git remote add origin https://github.com/afmiguel/class-repo.git"]
          ++ rest)
  /\ commands (emitted (studentSetup student_arrives) fresh_state)
     = ["git clone https://github.com/afmiguel/class-repo.git ."].
Proof.
  assert (Hname : "class-repo" <> EmptyString) by discriminate.
  split; [exact Hname|]. split.
  - pose proof (setup_commands_use_repository_url no_origin_yet fresh_state
                  "class-repo" Hname) as Hurl.
    cbv zeta in Hurl.
    destruct Hurl as (Hprofessor & _).
    destruct (Hprofessor eq_refl) as (_ & Hruns).
    apply (Hruns "/home/user/class" eq_refl).
    intros command r Hin. vm_compute in Hin.
    repeat match type of Hin with
           | _ \/ _ => destruct Hin as [Hin|Hin]
           | False => destruct Hin
           end;
      injection Hin as _ <-; reflexivity.
  - pose proof (setup_commands_use_repository_url student_arrives fresh_state
                  "class-repo" Hname) as Hurl.
    cbv zeta in Hurl.
    destruct Hurl as (_ & Hstudent).
    destruct (Hstudent eq_refl) as (_ & _ & Hopen).
    exact (Hopen "/home/user/class" eq_refl).
Defined.

(** ** Runs *)

Example trim_branch_output : trim ("  main " +:+ newline) = "main".
Proof. reflexivity. Qed.

Example trim_blank_status : trim (" " +:+ newline) = EmptyString.
Proof. reflexivity. Qed.

(** Professor setup in a folder without an [origin] remote: all nine
    commands run, and the only notifications are the two informative ones. *)
Example professorSetup_without_origin :
  let evs := emitted (professorSetup no_origin_yet) fresh_state in
  commands evs
  = ["git config --global user.name " +:+ dquote +:+ "Afonso Miguel" +:+ dquote;
     "git config --global user.email " +:+ dquote +:+ "afonso.miguel@pucpr.br" +:+ dquote;
     "git init";
     "git remote remove origin";
     "git remote add origin https://github.com/afmiguel/class-repo.git";
     "git add .";
     "git commit --allow-empty -m " +:+ dquote +:+ "Initial commit from Class Sync" +:+ dquote;
     "git branch --show-current";
     "git push -u origin main"]
  /\ error_messages evs = []
  /\ information_messages evs
     = ["Git configured globally for: Afonso Miguel";
        "Repository configured and pushed successfully!"].
Proof. vm_compute. done. Qed.

(** Professor sync when the commit is refused: no push, and the error
    notification carries the message of the error object. *)
Example professorSync_commit_refused :
  let evs := emitted (professorSync commit_refused) fresh_state in
  let commit := "git commit -m " +:+ dquote +:+ "Update from professor" +:+ dquote in
  commands evs = ["git status --porcelain"; "git add ."; commit]
  /\ error_messages evs
     = ["Failed to push update: Command failed: " +:+ commit +:+ newline
          +:+ "fatal: unable to auto-detect email address"].
Proof. vm_compute. done. Qed.

(** Student resync when the dialog is dismissed. *)
Example studentResync_dismissed :
  emitted (studentResync professor_at_work) fresh_state
  = [EvWarningMessage
       "This will discard ALL your local changes and download the professor's latest version. Are you sure?"
       true ["Yes, reset my work"] None].
Proof. reflexivity. Qed.

(** Student setup: the clone, then the stored entry, then the reload. *)
Example studentSetup_records_url :
  let final := snd (studentSetup student_arrives fresh_state) in
  workspaceState final !! "repoUrl" = Some "https://github.com/afmiguel/class-repo.git"
  /\ commands (trace final) = ["git clone https://github.com/afmiguel/class-repo.git ."]
  /\ last (trace final) = Some (EvExecuteCommand "workbench.action.reloadWindow").
Proof. vm_compute. done. Qed.

(** Student setup with no folder open: nothing is cloned, nothing stored. *)
Example studentSetup_nothing_open :
  let final := snd (studentSetup nothing_open fresh_state) in
  workspaceState final !! "repoUrl" = None
  /\ commands (trace final) = []
  /\ error_messages (trace final)
     = ["Failed to clone repository: Please open a project folder first."].
Proof. vm_compute. done. Qed.

(** * More on the handlers *)

(** Runs a handler through all its paths: the dialog, the folder check and
    every exit status. *)
Ltac explore :=
  cbv beta delta [emitted professorSetup professorSync studentSetup studentResync];
  unfold_async;
  try match goal with
      | |- context [inputBoxAnswer ?v ?h ?p] =>
          let Hanswer := fresh "Hanswer" in
          let Hname := fresh "Hname" in
          destruct (inputBoxAnswer v h p) as [repoName|] eqn:Hanswer;
          [destruct (truthy repoName) eqn:Hname|]
      | |- context [strict_equal ?a ?s] =>
          let Hanswer := fresh "Hanswer" in
          destruct (strict_equal a s) eqn:Hanswer
      end;
  cbn beta iota;
  try match goal with
      | |- context [runCommand ?v _ _ _] =>
          let Hopen := fresh "Hopen" in
          destruct (open_folder v) as [folder|] eqn:Hopen;
          [repeat first
             [ run_open Hopen
             | match goal with
               | |- context [if String.eqb ?a ?b then _ else _] =>
                   let Hclean := fresh "Hclean" in
                   destruct (String.eqb a b) eqn:Hclean
               end ]
          | repeat run_closed Hopen]
      end;
  tidy;
  rewrite ?drop_app_length.

(** Splits a goal [each_split P done evs] on a list given by its elements
    into one goal for each element. *)
Ltac each_element :=
  cbn [each_split app];
  repeat match goal with
         | |- _ /\ _ => split
         | |- True => exact I
         end.

Section Frame.

Context (vscode : Env).

(** X2. The runner and three of the handlers never write the workspace store. *)
Theorem store_written_by_studentSetup_only st :
  (forall command progressTitle,
     workspaceState (snd (runCommand vscode command progressTitle st)) = workspaceState st)
  /\ workspaceState (snd (professorSetup vscode st)) = workspaceState st
  /\ workspaceState (snd (professorSync vscode st)) = workspaceState st
  /\ workspaceState (snd (studentResync vscode st)) = workspaceState st.
Proof.
  split; [|repeat split; explore; reflexivity].
  intros command progressTitle.
  destruct (open_folder vscode) as [cwd|] eqn:Hopen.
  - rewrite (runCommand_open vscode cwd _ _ _ Hopen). cbv zeta.
    by destruct (exit_status _ =? 0)%Z.
  - by rewrite (runCommand_closed vscode _ _ _ Hopen).
Qed.

(** Closes a hypothesis of membership in a list of closed strings. *)
Ltac not_listed Hin :=
  vm_compute in Hin;
  repeat match type of Hin with
         | _ \/ _ => destruct Hin as [Hin|Hin]
         | False => destruct Hin
         | _ = _ => discriminate Hin
         end.

(** X3. In each handler an error notification is the last thing that happens,
    it is the only one, and the success notification of the handler is not
    shown in the same invocation. *)
Theorem error_notification_is_final st :
  error_is_final "Repository configured and pushed successfully!"
    (emitted (professorSetup vscode) st)
  /\ error_is_final "Update pushed successfully!" (emitted (professorSync vscode) st)
  /\ error_is_final "Professor's project cloned successfully! The window will now reload."
       (emitted (studentSetup vscode) st)
  /\ error_is_final "Project synced successfully!" (emitted (studentResync vscode) st).
Proof.
  split; [|split; [|split]]; explore; unfold error_is_final;
    cbn [error_messages information_messages last];
    first [ by left
          | right; eexists; split; [reflexivity|]; split; [reflexivity|];
            intros Hin; not_listed Hin ].
Qed.

(** Closes [success_is_earned] on one run. *)
Ltac earned :=
  unfold success_is_earned; cbn [information_messages executions];
  intros Hshown;
  first
    [ solve [not_listed Hshown]
    | split; [reflexivity|];
      intros command r' Hin Htolerated; cbn [In] in Hin;
      repeat match type of Hin with
             | _ \/ _ => destruct Hin as [Hin|Hin]
             | False => destruct Hin
             end;
      injection Hin as <- <-;
      first [ assumption | discriminate Htolerated ] ].

(** X4. A handler reports success only after its whole sequence has run and
    every process has exited with status zero; the removal of the old remote
    in professor setup is the one command that may have failed. *)
Theorem success_notification_is_earned st :
  success_is_earned "Repository configured and pushed successfully!" 9
    (fun command => String.eqb command "git remote remove origin")
    (emitted (professorSetup vscode) st)
  /\ success_is_earned "Update pushed successfully!" 4 (fun _ => false)
       (emitted (professorSync vscode) st)
  /\ success_is_earned
       "Professor's project cloned successfully! The window will now reload." 1
       (fun _ => false) (emitted (studentSetup vscode) st)
  /\ success_is_earned "Project synced successfully!" 4 (fun _ => false)
       (emitted (studentResync vscode) st).
Proof. split; [|split; [|split]]; explore; earned. Qed.

Lemma runs_in_folder_intro cwd evs :
  each_split
    (fun pre ev _ =>
       forall command dir r, ev = EvExec command dir r ->
       cwd = Some dir /\ exists title, last pre = Some (EvProgress title false))
    [] evs ->
  runs_in_folder cwd evs.
Proof.
  intros Hall pre command dir r post Hcut.
  exact (each_split_cut _ _ Hall _ _ _ Hcut command dir r eq_refl).
Qed.

(** X5. Whatever a handler executes, it executes in the first workspace folder,
    whose path is not empty, and under a progress notification that cannot
    be cancelled. *)
Theorem commands_run_in_workspace_folder st :
  runs_in_folder (open_folder vscode) (emitted (professorSetup vscode) st)
  /\ runs_in_folder (open_folder vscode) (emitted (professorSync vscode) st)
  /\ runs_in_folder (open_folder vscode) (emitted (studentSetup vscode) st)
  /\ runs_in_folder (open_folder vscode) (emitted (studentResync vscode) st).
Proof.
  split; [|split; [|split]]; explore; apply runs_in_folder_intro; each_element;
    intros command dir r' Hev; try discriminate Hev;
    injection Hev as <- <- <-; (split; [reflexivity|]); eexists; reflexivity.
Qed.

(** X6. Professor setup with no name typed (the input box cancelled, or left
    empty): the input box and nothing else. *)
Theorem professorSetup_returns_without_name st :
  let answer := inputBoxAnswer vscode (trace st) "Enter the repository name" in
  answer = None \/ answer = Some EmptyString ->
  professorSetup vscode st
  = (Resolved tt,
     log (EvInputBox "Enter the repository name"
            (Some "e.g., class-repo (must be created and empty on GitHub first)")
            answer) st).
Proof.
  intros answer Hanswer.
  unfold professorSetup. unfold_async. fold answer.
  by destruct Hanswer as [-> | ->].
Qed.

(** X7. In professor setup the branch query is followed by nothing when it
    fails, and otherwise by one last command: the push, to [origin], of the
    trimmed output of the query. *)
Theorem professorSetup_pushes_current_branch st pre queried post :
  executions (emitted (professorSetup vscode) st)
  = pre ++ ("git branch --show-current", queried) :: post ->
  (exit_status queried <> 0%Z /\ post = [])
  \/ (exit_status queried = 0%Z
      /\ exists pushed,
           post = [("git push -u origin " +:+ trim (captured_stdout queried), pushed)]).
Proof.
  intros Hcut.
  refine (each_split_cut
    (fun _ step post => forall queried,
       step = ("git branch --show-current", queried) ->
       (exit_status queried <> 0%Z /\ post = [])
       \/ (exit_status queried = 0%Z
           /\ exists pushed,
                post = [("git push -u origin " +:+ trim (captured_stdout queried),
                         pushed)]))
    _ _ _ _ _ Hcut queried eq_refl).
  clear. explore; cbn [executions]; each_element;
    intros queried Hstep; simplify_eq/=;
    first [ left; by split | right; split; [assumption|]; by eexists ].
Qed.

(** X8. Student setup asks for the window to be reloaded exactly when the clone
    has exited with status zero, and then as its last action. *)
Theorem studentSetup_reloads_after_clone st :
  let evs := emitted (studentSetup vscode) st in
  let reload := EvExecuteCommand "workbench.action.reloadWindow" in
  (In reload evs <-> exists command dir r, In (EvExec command dir r) evs
                                           /\ exit_status r = 0%Z)
  /\ (In reload evs -> last evs = Some reload).
Proof.
  cbv zeta. explore; cbn [In last];
    (split; [split; [intros Hin | intros (command & dir & r' & Hin & Hzero)] | intros Hin]);
    repeat match type of Hin with
           | _ \/ _ => destruct Hin as [Hin|Hin]
           | False => destruct Hin
           end;
    try discriminate Hin;
    try (injection Hin as <- <- <-; contradiction);
    first [ reflexivity | eexists _, _, _; split; [right; right; left; reflexivity | assumption]
          | tauto ].
Qed.

End Frame.

(** * The status bar *)

Section StatusBarFacts.

Context (vscode : Env) (fs : FileSystem).

(** X9. After [updateStatusBarVisibility], whatever the buttons were before:
    the Reset button is visible exactly when a folder is open and holds a
    [.git] entry, the Clone button exactly when a folder is open and holds
    none, and so never both. *)
Theorem buttons_follow_the_folder b :
  let b' := updateStatusBarVisibility vscode fs b in
  (item_visible (resetButton b') = true
   <-> exists folder, open_folder vscode = Some folder
                      /\ existsSync fs (path_join fs folder ".git") = true)
  /\ (item_visible (cloneButton b') = true
      <-> exists folder, open_folder vscode = Some folder
                         /\ existsSync fs (path_join fs folder ".git") = false)
  /\ (item_visible (cloneButton b') && item_visible (resetButton b') = false).
Proof.
  cbv zeta. unfold updateStatusBarVisibility, open_folder.
  destruct (workspaceFolder vscode) as [folder|]; [destruct (truthy folder)|];
    [destruct (existsSync fs (path_join fs folder ".git")) eqn:Hgit|..];
    cbn [resetButton cloneButton show hide set_visible item_visible andb];
    (split; [|split; [|reflexivity]]); split;
    try discriminate; try (intros (other & Heq & Hfound); congruence);
    intros _; by exists folder.
Qed.

(** X10. [updateStatusBarVisibility] touches nothing but the visibility of the
    two buttons, and doing it again in the same world changes nothing. *)
Theorem update_changes_visibility_only b :
  let b' := updateStatusBarVisibility vscode fs b in
  set_visible (item_visible (cloneButton b)) (cloneButton b')
  = set_visible (item_visible (cloneButton b)) (cloneButton b)
  /\ set_visible (item_visible (resetButton b)) (resetButton b')
     = set_visible (item_visible (resetButton b)) (resetButton b)
  /\ updateStatusBarVisibility vscode fs b' = b'.
Proof.
  cbv zeta. unfold updateStatusBarVisibility.
  destruct (workspaceFolder vscode) as [folder|]; [destruct (truthy folder)|];
    [destruct (existsSync fs (path_join fs folder ".git"))|..];
    by destruct b as [[] []].
Qed.

(** X11. After activation of the student extension a visible button names a
    registered command, the one its label announces: Clone runs
    [studentSetup], Reset runs [studentResync] (the combined extension
    registers the same handlers under the same names).  A button is visible
    only when the runner will find a folder: the handler started from it
    never ends with the request to open a project folder. *)
Theorem visible_button_is_wired st :
  let buttons := fst (student_activate vscode fs) in
  let registry := registered (snd (student_activate vscode fs)) in
  let served (item : StatusBarItem) (handler : Env -> Async unit) (refusal : string) :=
    item_visible item = true ->
    exists id,
      item_command item = Some id
      /\ handler_of id registry = Some handler
      /\ handler_of id (registered activate) = Some handler
      /\ ~ In refusal (error_messages (emitted (handler vscode) st)) in
  served (cloneButton buttons) studentSetup
    "Failed to clone repository: Please open a project folder first."
  /\ served (resetButton buttons) studentResync
       "Failed to sync: Please open a project folder first.".
Proof.
  cbv zeta. unfold student_activate. cbn [fst snd registered].
  pose proof (buttons_follow_the_folder
    {| cloneButton :=
         set_tooltip "Clone the professor's repository to start"
           (set_text "$(repo-clone) Class Sync: Clone"
              (set_command "class-sync.studentSetup" (createStatusBarItem AlignLeft 100)));
       resetButton :=
         set_tooltip "Reset local changes to the professor's latest version"
           (set_text "$(debug-restart) Class Sync: Reset"
              (set_command "class-sync.studentResync"
                 (createStatusBarItem AlignLeft 101))) |})
    as (Hreset & Hclone & _).
  cbv zeta in Hreset, Hclone.
  split; intros Hvisible;
    [apply Hclone in Hvisible as (here & Hhere & _); exists "class-sync.studentSetup"
    |apply Hreset in Hvisible as (here & Hhere & _); exists "class-sync.studentResync"];
    (split; [unfold updateStatusBarVisibility;
             destruct (workspaceFolder vscode) as [dir|]; [destruct (truthy dir)|];
             [destruct (existsSync fs (path_join fs dir ".git"))|..]; reflexivity|]);
    (split; [reflexivity|]); (split; [reflexivity|]);
    clear Hreset Hclone; explore; try congruence;
    cbn [error_messages In]; intros Hin;
    repeat match type of Hin with
           | _ \/ _ => destruct Hin as [Hin|Hin]
           | False => destruct Hin
           end;
    simplify_eq/=.
Qed.

End StatusBarFacts.

(** * The batch script *)

(** Runs the script through all its paths: the name typed, each
    [errorlevel] consulted and each existence test. *)
Ltac script_paths c :=
  cbv beta delta [SetupScript.setup_script SetupScript.setup_body];
  cbv beta iota zeta delta
    [SetupScript.bind SetupScript.ret SetupScript.goto_end SetupScript.act
     SetupScript.echo SetupScript.set_p SetupScript.run SetupScript.if_exist];
  repeat first
    [ match goal with
      | |- context [String.eqb (SetupScript.REPO_NAME c) EmptyString] =>
          let Hname := fresh "Hname" in
          destruct (String.eqb_spec (SetupScript.REPO_NAME c) EmptyString) as [Hname|Hname];
          [rewrite ?Hname|]
      end
    | match goal with
      | |- context [if (SetupScript.errorlevel c ?done ?line =? 0)%Z then _ else _] =>
          let code := fresh "code" in
          let Hcode := fresh "Hcode" in
          generalize (SetupScript.errorlevel c done line); intro code;
          destruct (Z.eqb_spec code 0) as [Hcode|Hcode]
      | |- context [if negb (SetupScript.errorlevel c ?done ?line =? 0)%Z then _ else _] =>
          let code := fresh "code" in
          let Hcode := fresh "Hcode" in
          generalize (SetupScript.errorlevel c done line); intro code;
          destruct (Z.eqb_spec code 0) as [Hcode|Hcode]
      | |- context [if SetupScript.exist c ?done ?path then _ else _] =>
          let found := fresh "found" in
          generalize (SetupScript.exist c done path); intros [|]
      | |- context [if negb (SetupScript.exist c ?done ?path) then _ else _] =>
          let found := fresh "found" in
          generalize (SetupScript.exist c done path); intros [|]
      end;
      cbn [negb]; cbn beta iota ];
  repeat match goal with
         | |- context [SetupScript.errorlevel c ?done ?line] =>
             let code := fresh "code" in
             generalize (SetupScript.errorlevel c done line); intro code
         end;
  cbn [snd app].

Section ScriptFacts.

Context (c : SetupScript.Console).

(** X13. When nothing is typed at the prompt the script does nothing to the
    machine: it complains and waits for a key. *)
Theorem script_without_name :
  SetupScript.REPO_NAME c = EmptyString ->
  SetupScript.effects (SetupScript.setup_script c) = []
  /\ In (SetupScript.Echo "[ERRO] Nenhum nome de repositorio foi digitado.")
        (SetupScript.setup_script c)
  /\ last (SetupScript.setup_script c) = Some SetupScript.Pause.
Proof.
  intros Hempty. script_paths c; try congruence.
  cbn. tauto.
Qed.

(** Finds an element in a list given by its elements. *)
Ltac listed := cbn [In app]; repeat first [ left; reflexivity | right ].

(** Closes a hypothesis of membership that no element of the list meets. *)
Ltac none_listed Hin :=
  cbn [In app] in Hin;
  repeat match type of Hin with
         | _ \/ _ => destruct Hin as [Hin|Hin]
         | False => destruct Hin
         end;
  discriminate Hin.

(** Compares two actions given by their constructors. *)
Ltac same_action Ha :=
  first [ discriminate Ha | injection Ha; clear Ha; intros; subst | clear Ha ].

Ltac unfold_lines :=
  unfold ls_remote_line, clone_line, list_extensions_line, download_line, install_line,
    repoUrl, SetupScript.quoted, SetupScript.GITHUB_USER, SetupScript.EXTENSION_ID,
    SetupScript.EXTENSION_URL, SetupScript.VSIX_FILENAME in *.

(** X14. When [git ls-remote] does not find the repository the script stops:
    nothing has been created before and nothing is created, cloned,
    installed or opened after. *)
Theorem script_stops_when_repository_missing pre code post :
  let name := SetupScript.REPO_NAME c in
  SetupScript.plain_name name = true ->
  SetupScript.setup_script c
  = pre ++ SetupScript.Run (ls_remote_line name) code :: post ->
  code <> 0%Z ->
  SetupScript.effects pre = []
  /\ SetupScript.effects post = []
  /\ In (SetupScript.Echo
           ("[ERRO] Repositorio '" +:+ name +:+ "' nao encontrado no GitHub.")) post.
Proof.
  intros name _ Hcut. subst name.
  refine (each_split_cut
    (fun pre a post => forall code,
       a = SetupScript.Run (ls_remote_line (SetupScript.REPO_NAME c)) code ->
       code <> 0%Z ->
       SetupScript.effects pre = []
       /\ SetupScript.effects post = []
       /\ In (SetupScript.Echo
                ("[ERRO] Repositorio '" +:+ SetupScript.REPO_NAME c
                   +:+ "' nao encontrado no GitHub.")) post)
    _ _ _ _ _ Hcut code eq_refl).
  clear. script_paths c; each_element; intros code' Ha Hfailed;
    same_action Ha; try congruence;
    (split; [reflexivity|]); (split; [reflexivity|]); listed.
Qed.

(** X15. When a file or folder of the typed name is already there, the script
    leaves it alone: it creates nothing, clones nothing and opens nothing. *)
Theorem script_leaves_existing_folder pre post :
  let name := SetupScript.REPO_NAME c in
  SetupScript.plain_name name = true ->
  SetupScript.setup_script c = pre ++ SetupScript.IfExist name true :: post ->
  (forall dir, ~ In (SetupScript.Mkdir dir) pre) ->
  SetupScript.effects post = []
  /\ In (SetupScript.Echo
           ("[AVISO] A pasta '" +:+ name +:+ "' ja existe. O script nao fara nada."))
        post.
Proof.
  intros name _ Hcut. subst name.
  refine (each_split_cut
    (fun pre a post =>
       a = SetupScript.IfExist (SetupScript.REPO_NAME c) true ->
       (forall dir, ~ In (SetupScript.Mkdir dir) pre) ->
       SetupScript.effects post = []
       /\ In (SetupScript.Echo
                ("[AVISO] A pasta '" +:+ SetupScript.REPO_NAME c
                   +:+ "' ja existe. O script nao fara nada.")) post)
    _ _ _ _ _ Hcut eq_refl).
  clear. script_paths c; each_element; intros Ha Hfresh;
    same_action Ha;
    first [ split; [reflexivity|]; listed
          | exfalso; eapply Hfresh; listed ].
Qed.

(** X16. When the clone fails the script undoes what it did: it leaves the
    folder it created and removes it, and it installs and opens nothing. *)
Theorem script_cleans_up_failed_clone pre code post :
  let name := SetupScript.REPO_NAME c in
  SetupScript.plain_name name = true ->
  SetupScript.setup_script c = pre ++ SetupScript.Run (clone_line name) code :: post ->
  code <> 0%Z ->
  SetupScript.effects pre
  = [SetupScript.Run (ls_remote_line name) 0; SetupScript.Mkdir name; SetupScript.Cd name]
  /\ SetupScript.effects post = [SetupScript.Cd ".."; SetupScript.Rmdir name].
Proof.
  intros name _ Hcut. subst name.
  refine (each_split_cut
    (fun pre a post => forall code,
       a = SetupScript.Run (clone_line (SetupScript.REPO_NAME c)) code ->
       code <> 0%Z ->
       SetupScript.effects pre
       = [SetupScript.Run (ls_remote_line (SetupScript.REPO_NAME c)) 0;
          SetupScript.Mkdir (SetupScript.REPO_NAME c);
          SetupScript.Cd (SetupScript.REPO_NAME c)]
       /\ SetupScript.effects post
          = [SetupScript.Cd ".."; SetupScript.Rmdir (SetupScript.REPO_NAME c)])
    _ _ _ _ _ Hcut code eq_refl).
  clear. script_paths c; each_element; intros code' Ha Hfailed;
    same_action Ha; try congruence; split; reflexivity.
Qed.

(** X17. The editor is opened as the last act of a complete run: in the folder
    just cloned, with the extension found installed or else downloaded,
    installed and its installer deleted. *)
Theorem script_opens_editor_last pre code post :
  let name := SetupScript.REPO_NAME c in
  SetupScript.plain_name name = true ->
  SetupScript.setup_script c = pre ++ SetupScript.Run "code ." code :: post ->
  SetupScript.effects post = []
  /\ exists listed,
       let cloned :=
         [SetupScript.Run (ls_remote_line name) 0; SetupScript.Mkdir name;
          SetupScript.Cd name; SetupScript.Run (clone_line name) 0;
          SetupScript.Run list_extensions_line listed] in
       (listed = 0%Z /\ SetupScript.effects pre = cloned)
       \/ (listed <> 0%Z
           /\ In (SetupScript.IfExist "class-sync-student.vsix" true) pre
           /\ exists downloaded installed,
                SetupScript.effects pre
                = cloned ++ [SetupScript.Run download_line downloaded;
                             SetupScript.Run install_line installed;
                             SetupScript.Del "class-sync-student.vsix"]).
Proof.
  intros name _ Hcut. subst name.
  refine (each_split_cut
    (fun pre a post => forall code,
       a = SetupScript.Run "code ." code ->
       SetupScript.effects post = []
       /\ exists listed,
            let cloned :=
              [SetupScript.Run (ls_remote_line (SetupScript.REPO_NAME c)) 0;
               SetupScript.Mkdir (SetupScript.REPO_NAME c);
               SetupScript.Cd (SetupScript.REPO_NAME c);
               SetupScript.Run (clone_line (SetupScript.REPO_NAME c)) 0;
               SetupScript.Run list_extensions_line listed] in
            (listed = 0%Z /\ SetupScript.effects pre = cloned)
            \/ (listed <> 0%Z
                /\ In (SetupScript.IfExist "class-sync-student.vsix" true) pre
                /\ exists downloaded installed,
                     SetupScript.effects pre
                     = cloned ++ [SetupScript.Run download_line downloaded;
                                  SetupScript.Run install_line installed;
                                  SetupScript.Del "class-sync-student.vsix"]))
    _ _ _ _ _ Hcut code eq_refl).
  clear. script_paths c; each_element; intros code' Ha;
    same_action Ha; (split; [reflexivity|]); eexists; cbn [SetupScript.effects app];
    first [ left; split; reflexivity
          | right; split; [eassumption|]; split; [listed|]; eexists _, _; reflexivity ].
Qed.

(** X18. When the installer is not there after the download the script gives up:
    nothing is installed and the editor is not opened. *)
Theorem script_gives_up_without_installer pre post :
  SetupScript.plain_name (SetupScript.REPO_NAME c) = true ->
  SetupScript.setup_script c
  = pre ++ SetupScript.IfExist "class-sync-student.vsix" false :: post ->
  (exists downloaded, In (SetupScript.Run download_line downloaded) pre) ->
  SetupScript.effects post = []
  /\ In (SetupScript.Echo
           "[ERRO] Falha ao baixar a extensao. Verifique a URL e sua conexao.") post.
Proof.
  intros _ Hcut.
  refine (each_split_cut
    (fun pre a post =>
       a = SetupScript.IfExist "class-sync-student.vsix" false ->
       (exists downloaded, In (SetupScript.Run download_line downloaded) pre) ->
       SetupScript.effects post = []
       /\ In (SetupScript.Echo
                "[ERRO] Falha ao baixar a extensao. Verifique a URL e sua conexao.") post)
    _ _ _ _ _ Hcut eq_refl).
  clear. script_paths c; each_element; intros Ha (downloaded & Hin);
    same_action Ha;
    first [ split; [reflexivity|]; listed | none_listed Hin ].
Qed.

(** X19. The script runs six external commands at most, and names the remote
    repository, to [git ls-remote] and to [git clone], by the URL that the
    extension builds from the same name. *)
Theorem script_command_lines line code :
  let name := SetupScript.REPO_NAME c in
  SetupScript.plain_name name = true ->
  In (SetupScript.Run line code) (SetupScript.setup_script c) ->
  In line [ls_remote_line name; clone_line name; list_extensions_line; download_line;
           install_line; "code ."].
Proof.
  intros name _. subst name. revert line code.
  script_paths c; intros line code' Hin;
    cbn [In app] in Hin;
    repeat match type of Hin with
           | _ \/ _ => destruct Hin as [Hin|Hin]
           | False => destruct Hin
           end;
    try discriminate Hin; injection Hin as <- _; listed.
Qed.

End ScriptFacts.

(** * More runs on the scenarios *)

Lemma professorSetup_returns_without_name_witness :
  inputBoxAnswer professor_at_work (trace fresh_state) "Enter the repository name" = None
  /\ fst (professorSetup professor_at_work fresh_state) = Resolved tt.
Proof.
  split; [reflexivity|].
  pose proof (professorSetup_returns_without_name professor_at_work fresh_state) as Hreturns.
  cbv zeta in Hreturns. rewrite Hreturns; [reflexivity|]. left; reflexivity.
Defined.

Lemma professorSetup_pushes_current_branch_witness :
  exists pushed,
    skipn 8 (executions (emitted (professorSetup no_origin_yet) fresh_state))
    = [("git push -u origin main", pushed)].
Proof.
  assert (Hcut : executions (emitted (professorSetup no_origin_yet) fresh_state)
    = firstn 7 (executions (emitted (professorSetup no_origin_yet) fresh_state))
      ++ ("git branch --show-current", exits_ok ("main" +:+ newline))
      :: skipn 8 (executions (emitted (professorSetup no_origin_yet) fresh_state)))
    by (vm_compute; reflexivity).
  destruct (professorSetup_pushes_current_branch no_origin_yet fresh_state _ _ _ Hcut)
    as [(Hfailed & _) | (_ & pushed & Hpost)].
  - exfalso. apply Hfailed. reflexivity.
  - exists pushed. exact Hpost.
Defined.

Lemma script_without_name_witness :
  SetupScript.REPO_NAME nothing_typed = EmptyString
  /\ SetupScript.effects (SetupScript.setup_script nothing_typed) = [].
Proof.
  split; [reflexivity|].
  destruct (script_without_name nothing_typed eq_refl) as (Hnone & _).
  exact Hnone.
Defined.

Lemma script_stops_when_repository_missing_witness :
  SetupScript.plain_name "class-repo" = true
  /\ SetupScript.effects (skipn 8 (SetupScript.setup_script repository_missing)) = [].
Proof.
  split; [reflexivity|].
  assert (Hcut : SetupScript.setup_script repository_missing
    = firstn 7 (SetupScript.setup_script repository_missing)
      ++ SetupScript.Run (ls_remote_line "class-repo") 1
      :: skipn 8 (SetupScript.setup_script repository_missing))
    by (vm_compute; reflexivity).
  pose proof (script_stops_when_repository_missing repository_missing _ _ _ eq_refl Hcut)
    as Hstops.
  destruct Hstops as (_ & Hafter & _); [discriminate|]. exact Hafter.
Defined.

Lemma script_leaves_existing_folder_witness :
  SetupScript.plain_name "class-repo" = true
  /\ SetupScript.effects (skipn 10 (SetupScript.setup_script folder_present)) = [].
Proof.
  split; [reflexivity|].
  assert (Hcut : SetupScript.setup_script folder_present
    = firstn 9 (SetupScript.setup_script folder_present)
      ++ SetupScript.IfExist "class-repo" true
      :: skipn 10 (SetupScript.setup_script folder_present))
    by (vm_compute; reflexivity).
  pose proof (script_leaves_existing_folder folder_present _ _ eq_refl Hcut) as Hleaves.
  destruct Hleaves as (Hafter & _); [|exact Hafter].
  intros dir Hin. vm_compute in Hin.
  repeat match type of Hin with
         | _ \/ _ => destruct Hin as [Hin|Hin]
         | False => destruct Hin
         | _ = _ => discriminate Hin
         end.
Defined.

Lemma script_cleans_up_failed_clone_witness :
  SetupScript.plain_name "class-repo" = true
  /\ SetupScript.effects (skipn 16 (SetupScript.setup_script clone_refused))
     = [SetupScript.Cd ".."; SetupScript.Rmdir "class-repo"].
Proof.
  split; [reflexivity|].
  assert (Hcut : SetupScript.setup_script clone_refused
    = firstn 15 (SetupScript.setup_script clone_refused)
      ++ SetupScript.Run (clone_line "class-repo") 1
      :: skipn 16 (SetupScript.setup_script clone_refused))
    by (vm_compute; reflexivity).
  pose proof (script_cleans_up_failed_clone clone_refused _ _ _ eq_refl Hcut) as Hcleans.
  destruct Hcleans as (_ & Hafter); [discriminate|]. exact Hafter.
Defined.

Lemma script_opens_editor_last_witness :
  SetupScript.plain_name "class-repo" = true
  /\ SetupScript.effects (skipn 34 (SetupScript.setup_script new_machine)) = [].
Proof.
  split; [reflexivity|].
  assert (Hcut : SetupScript.setup_script new_machine
    = firstn 33 (SetupScript.setup_script new_machine)
      ++ SetupScript.Run "code ." 0
      :: skipn 34 (SetupScript.setup_script new_machine))
    by (vm_compute; reflexivity).
  destruct (script_opens_editor_last new_machine _ _ _ eq_refl Hcut) as (Hafter & _).
  exact Hafter.
Defined.

Lemma script_gives_up_without_installer_witness :
  SetupScript.plain_name "class-repo" = true
  /\ SetupScript.effects (skipn 24 (SetupScript.setup_script new_machine_offline)) = [].
Proof.
  split; [reflexivity|].
  assert (Hcut : SetupScript.setup_script new_machine_offline
    = firstn 23 (SetupScript.setup_script new_machine_offline)
      ++ SetupScript.IfExist "class-sync-student.vsix" false
      :: skipn 24 (SetupScript.setup_script new_machine_offline))
    by (vm_compute; reflexivity).
  destruct (script_gives_up_without_installer new_machine_offline _ _ eq_refl Hcut)
    as (Hafter & _); [|exact Hafter].
  exists 0%Z. vm_compute. do 22 right. left. reflexivity.
Defined.

Lemma script_command_lines_witness :
  SetupScript.plain_name "class-repo" = true
  /\ In (clone_line "class-repo")
        [ls_remote_line "class-repo"; clone_line "class-repo"; list_extensions_line;
         download_line; install_line; "code ."].
Proof.
  split; [reflexivity|].
  apply (script_command_lines new_machine (clone_line "class-repo") 0%Z eq_refl).
  vm_compute. do 15 right. left. reflexivity.
Defined.

(** * The buttons over time *)

Lemma update_absorbs vscode fs vscode' fs' b :
  updateStatusBarVisibility vscode' fs' (updateStatusBarVisibility vscode fs b)
  = updateStatusBarVisibility vscode' fs' b.
Proof.
  unfold updateStatusBarVisibility.
  destruct (workspaceFolder vscode') as [folder'|]; [destruct (truthy folder')|];
    [destruct (existsSync fs' (path_join fs' folder' ".git"))|..];
    (destruct (workspaceFolder vscode) as [folder|]; [destruct (truthy folder)|];
     [destruct (existsSync fs (path_join fs folder ".git"))|..]);
    reflexivity.
Qed.

Lemma last_after_first {A} (l : list A) (d x : A) :
  default d (last (x :: l)) = default x (last l).
Proof.
  revert d x. induction l as [|y l IH]; intros d x; [reflexivity|].
  change (last (x :: y :: l)) with (last (y :: l)).
  by rewrite !IH.
Qed.

(** X12. The buttons keep no memory: after activation and any number of changes
    of the workspace folders, they are what a fresh activation in the
    current world would show. *)
Theorem buttons_track_folder_changes (changes : list (Env * FileSystem)) :
  forall vscode fs,
    let current := default (vscode, fs) (last changes) in
    foldl (fun b world => onDidChangeWorkspaceFolders (fst world) (snd world) b)
      (fst (student_activate vscode fs)) changes
    = fst (student_activate (fst current) (snd current)).
Proof.
  induction changes as [|[vscode' fs'] changes IH]; intros vscode fs; [reflexivity|].
  cbn [foldl]. cbv zeta.
  rewrite last_after_first.
  rewrite <- (IH vscode' fs'). f_equal.
  unfold onDidChangeWorkspaceFolders, student_activate. cbn [fst snd].
  apply update_absorbs.
Qed.

(** * The runner and every outcome of [exec] *)


(** The runner of the first part is the runner of this part on the runs of
    the first part. *)
Lemma runCommand_on_plain_runs vscode command progressTitle st :
  fst (Runner.runCommand vscode
         (fun command cwd =>
            Runner.plain command
              (process vscode (trace st ++ [EvProgress progressTitle false]) command cwd))
         command progressTitle)
  = promise_of (fst (runCommand vscode command progressTitle st)).
Proof.
  destruct (open_folder vscode) as [cwd|] eqn:Hopen.
  - rewrite (runCommand_open vscode cwd _ _ _ Hopen). cbv zeta.
    apply open_folder_Some in Hopen as [Hfolder Hpath].
    unfold Runner.runCommand, Runner.plain. rewrite Hfolder, Hpath.
    by destruct (exit_status _ =? 0)%Z.
  - rewrite (runCommand_closed vscode _ _ _ Hopen).
    unfold Runner.runCommand. unfold open_folder in Hopen.
    destruct (workspaceFolder vscode) as [cwd|]; [|reflexivity].
    by destruct (truthy cwd).
Qed.



